(** * make_uv_pin: the UV-pin wiring procedure of src/utils/uv_pin.py

    The procedure is a straight-line script against the host application's
    command interface ([maya.cmds]).  The host is not part of the
    repository, so it is taken as a parameter: a scene type and a handler
    that answers each command, or refuses it (the command raises).  The
    script itself is embedded in a state-and-error monad that also records
    the commands the host completed, in order; every statement below is
    about that record and about the outcome of the run. *)

From Stdlib Require Import String Ascii List ZArith QArith Bool Lia Eqdep_dec.
From ExtLib Require Import Structures.Monad.
Import ListNotations.
Import MonadNotation.
Local Close Scope Q_scope.
Local Open Scope string_scope.
Local Open Scope monad_scope.

(** ** Host commands *)

(** The [cmds] calls the script makes, with the keyword flags it always
    passes folded into the constructor:
    - [listRelatives n]    is [cmds.listRelatives(n, children=True, shapes=True)];
    - [parent c p]         is [cmds.parent(c, p, shape=True, relative=True)];
    - [listConnections p]  is [cmds.listConnections(p, plugs=True, connections=True, destination=True)];
    - [connectAttr a b f]  is [cmds.connectAttr(a, b)], with [force=True] when [f];
    - [setAttr_float2 p u v] is [cmds.setAttr(p, u, v, type="float2")];
    - [createNode t n]     is [cmds.createNode(t, name=n)];
    - [xform n t r]        is [cmds.xform(n, translation=t, rotation=r)]. *)
Inductive Call : Type :=
| listRelatives (node : string)
| getAttr (plug : string)
| objectType (node : string)
| duplicate (node : string)
| parent (child new_parent : string)
| delete (node : string)
| rename (node new_name : string)
| listConnections (plug : string)
| connectAttr (source destination : string) (force : bool)
| setAttr (plug : string) (value : Z)
| setAttr_float2 (plug : string) (u v : Q)
| createNode (node_type name : string)
| xform (node : string) (translation rotation : list Z).

(** What each command hands back to the script.  [listRelatives] and
    [listConnections] give [None] when there is nothing to list; of
    [getAttr] only the truth value is used. *)
Definition answer (c : Call) : Type :=
  match c with
  | listRelatives _ => option (list string)
  | getAttr _ => bool
  | objectType _ => string
  | duplicate _ => list string
  | rename _ _ => string
  | listConnections _ => option (list string)
  | createNode _ _ => string
  | parent _ _ | delete _ | connectAttr _ _ _
  | setAttr _ _ | setAttr_float2 _ _ _ | xform _ _ _ => unit
  end.

(** A command the host completed, with its answer. *)
Inductive Event : Type :=
| Done (c : Call) (a : answer c).

Definition call_of (e : Event) : Call :=
  match e with Done c _ => c end.

(** The commands that only read the scene. *)
Definition is_query (c : Call) : bool :=
  match c with
  | listRelatives _ | getAttr _ | objectType _ | listConnections _ => true
  | _ => false
  end.

(** ** Outcomes *)

(** How a run can stop short of [return]:
    - [SceneError]: the script called [cmds.error], the host's fatal-error
      command, which never returns to the caller;
    - [ArgumentError]: the script's own [raise RuntimeError(...)];
    - [IndexError]: a subscript out of range;
    - [HostException c]: the host refused command [c]. *)
Inductive Fault : Type :=
| SceneError (message : string)
| ArgumentError (message : string)
| IndexError
| HostException (c : Call).

Inductive Outcome (A : Type) : Type :=
| Returned (a : A)
| Raised (f : Fault).
Arguments Returned {A} a.
Arguments Raised {A} f.

Section Script.

(** The host: its scene, and how it answers a command in a scene ([None]:
    the command raises and the scene is left as it was). *)
Variable Scene : Type.
Variable host : forall c : Call, Scene -> option (Scene * answer c).

(** ** The monad of the script *)

Definition M (A : Type) : Type := Scene -> Outcome A * Scene * list Event.

#[local] Instance Monad_M : Monad M :=
  {| ret := fun A (a : A) s => (Returned a, s, []);
     bind := fun A B (m : M A) (f : A -> M B) s =>
       match m s with
       | (Returned a, s1, t1) =>
           match f a s1 with
           | (o, s2, t2) => (o, s2, (t1 ++ t2)%list)
           end
       | (Raised e, s1, t1) => (Raised e, s1, t1)
       end |}.

Definition throw {A : Type} (e : Fault) : M A :=
  fun s => (Raised e, s, []).

(** [cmds.<c>(...)] *)
Definition cmd (c : Call) : M (answer c) :=
  fun s =>
    match host c s with
    | Some (s1, a) => (Returned a, s1, [Done c a])
    | None => (Raised (HostException c), s, [])
    end.

(** [cmds.error(msg)] *)
Definition cmds_error {A : Type} (message : string) : M A :=
  throw (SceneError message).

(** [l[n]] *)
Definition subscript (l : list string) (n : nat) : M string :=
  match nth_error l n with
  | Some x => ret x
  | None => throw IndexError
  end.

(** [x or []] *)
Definition or_empty (x : option (list string)) : list string :=
  match x with
  | Some l => l
  | None => []
  end.

(** Truth value of an optional list: [None] and [[]] are false. *)
Definition truthy (x : option (list string)) : bool :=
  match x with
  | Some (_ :: _) => true
  | _ => false
  end.

(** [if x: yes(x) else: no] for an optional string [x]: [None] and the
    empty string are false. *)
Definition if_str {A : Type} (x : option string) (yes : string -> A) (no : A) : A :=
  match x with
  | Some (String c s) => yes (String c s)
  | _ => no
  end.

(** ** The procedure *)

(** [next((s for s in shapes if cmds.getAttr(f"{s}.intermediateObject")), None)]
    when [flag] is [true], and the same with [if not ...] when [flag] is
    [false]: the generator queries the shapes in order and stops at the
    first one whose flag is [flag]. *)
Fixpoint next_shape (flag : bool) (shapes : list string) : M (option string) :=
  match shapes with
  | [] => ret None
  | s :: rest =>
      b <- cmd (getAttr (s ++ ".intermediateObject")) ;;
      if Bool.eqb b flag then ret (Some s) else next_shape flag rest
  end.

(** Lines 77-93 and 95-111: the chained comparison of an axis symbol, for
    the pin attribute [attr]. *)
Definition set_axis (uv_pin attr : string) (axis : string) : M unit :=
  if axis =? "x" then cmd (setAttr (uv_pin ++ attr) 0)
  else if axis =? "y" then cmd (setAttr (uv_pin ++ attr) 1)
  else if axis =? "z" then cmd (setAttr (uv_pin ++ attr) 2)
  else if axis =? "-x" then cmd (setAttr (uv_pin ++ attr) 3)
  else if axis =? "-y" then cmd (setAttr (uv_pin ++ attr) 4)
  else if axis =? "-z" then cmd (setAttr (uv_pin ++ attr) 5)
  else throw (ArgumentError (axis ++ " isn't a valid axis, it should be x y z -x -y -z")).

Definition make_uv_pin
    (object_to_pin surface : string) (u v : Q)
    (local_space normalize : bool)
    (normal_axis tangent_axis : option string)
    (reset_transforms : bool) : M string :=
  (* Retrieve shape nodes from the surface. *)
  relatives <- cmd (listRelatives surface) ;;
  let shapes := or_empty relatives in
  (match shapes with
   | [] => cmds_error ("No shape nodes found on surface: " ++ surface)
   | _ :: _ => ret tt
   end) ;;
  (* Choose the primary shape (non-intermediate if available) and check
     for an existing intermediate shape. *)
  fallback <- subscript shapes 0 ;;
  found <- next_shape false shapes ;;
  let primary_shape := match found with Some s => s | None => fallback end in
  existing <- next_shape true shapes ;;
  (* Determine attribute names based on surface type. *)
  surface_type <- cmd (objectType primary_shape) ;;
  attrs <-
    (if surface_type =? "mesh" then
       ret (".inMesh", ".worldMesh[0]", ".outMesh")
     else if surface_type =? "nurbsSurface" then
       ret (".create", ".worldSpace[0]", ".local")
     else cmds_error ("Unsupported surface type: " ++ surface_type)) ;;
  let '(attr_input, attr_world, attr_output) := attrs in
  (* If no intermediate shape exists, create one. *)
  shape_origin <-
    match existing with
    | Some s => ret s
    | None =>
        copies <- cmd (duplicate primary_shape) ;;
        duplicated <- subscript copies 0 ;;
        shape_origin_list <- cmd (listRelatives duplicated) ;;
        (if truthy shape_origin_list then ret tt
         else cmds_error "Could not create intermediate shape.") ;;
        shape_origin <- subscript (or_empty shape_origin_list) 0 ;;
        cmd (parent shape_origin surface) ;;
        cmd (delete duplicated) ;;
        let new_name := primary_shape ++ "Orig" in
        shape_origin <- cmd (rename shape_origin new_name) ;;
        (* If there is an incoming connection, reconnect it. *)
        in_conn <- cmd (listConnections (primary_shape ++ attr_input)) ;;
        (if truthy in_conn then
           upstream <- subscript (or_empty in_conn) 1 ;;
           cmd (connectAttr upstream (shape_origin ++ attr_input) false)
         else ret tt) ;;
        cmd (connectAttr (shape_origin ++ attr_world) (primary_shape ++ attr_input) true) ;;
        cmd (setAttr (shape_origin ++ ".intermediateObject") 1) ;;
        ret shape_origin
    end ;;
  (* Create the UVPin node and connect it. *)
  uv_pin <- cmd (createNode "uvPin" (object_to_pin ++ "_uvPin")) ;;
  cmd (connectAttr (primary_shape ++ attr_world) (uv_pin ++ ".deformedGeometry") false) ;;
  cmd (connectAttr (shape_origin ++ attr_output) (uv_pin ++ ".originalGeometry") false) ;;
  cmd (xform object_to_pin [0; 0; 0]%Z [0; 0; 0]%Z) ;;
  if_str normal_axis
    (set_axis uv_pin ".normalAxis")
    (cmd (setAttr (uv_pin ++ ".normalAxis") 1)) ;;
  if_str tangent_axis
    (set_axis uv_pin ".tangentAxis")
    (cmd (setAttr (uv_pin ++ ".tangentAxis") 0)) ;;
  cmd (setAttr (uv_pin ++ ".normalizedIsoParms") 0) ;;
  cmd (setAttr_float2 (uv_pin ++ ".coordinate[0]") u v) ;;
  cmd (connectAttr (uv_pin ++ ".outputMatrix[0]") (object_to_pin ++ ".offsetParentMatrix") false) ;;
  (if normalize then cmd (setAttr (uv_pin ++ ".normalizedIsoParms") 1) else ret tt) ;;
  (if local_space then cmd (setAttr (uv_pin ++ ".relativeSpaceMode") 1)
   else cmd (setAttr (object_to_pin ++ ".inheritsTransform") 0)) ;;
  ret uv_pin.

(** ** The procedure, step by step

    The same lines cut at the source's block comments; [make_uv_pin_steps]
    below shows that running them in sequence is running [make_uv_pin]. *)

(** Lines 32-51: the shapes, the primary shape, the existing intermediate
    shape if any, and the three attribute names. *)
Definition locate (surface : string)
  : M (string * option string * (string * string * string)) :=
  relatives <- cmd (listRelatives surface) ;;
  let shapes := or_empty relatives in
  (match shapes with
   | [] => cmds_error ("No shape nodes found on surface: " ++ surface)
   | _ :: _ => ret tt
   end) ;;
  fallback <- subscript shapes 0 ;;
  found <- next_shape false shapes ;;
  let primary_shape := match found with Some s => s | None => fallback end in
  existing <- next_shape true shapes ;;
  surface_type <- cmd (objectType primary_shape) ;;
  attrs <-
    (if surface_type =? "mesh" then
       ret (".inMesh", ".worldMesh[0]", ".outMesh")
     else if surface_type =? "nurbsSurface" then
       ret (".create", ".worldSpace[0]", ".local")
     else cmds_error ("Unsupported surface type: " ++ surface_type)) ;;
  ret (primary_shape, existing, attrs).

(** Lines 55-69: the body of [if shape_origin is None]. *)
Definition synthesize (surface primary_shape attr_input attr_world : string)
  : M string :=
  copies <- cmd (duplicate primary_shape) ;;
  duplicated <- subscript copies 0 ;;
  shape_origin_list <- cmd (listRelatives duplicated) ;;
  (if truthy shape_origin_list then ret tt
   else cmds_error "Could not create intermediate shape.") ;;
  shape_origin <- subscript (or_empty shape_origin_list) 0 ;;
  cmd (parent shape_origin surface) ;;
  cmd (delete duplicated) ;;
  let new_name := primary_shape ++ "Orig" in
  shape_origin <- cmd (rename shape_origin new_name) ;;
  in_conn <- cmd (listConnections (primary_shape ++ attr_input)) ;;
  (if truthy in_conn then
     upstream <- subscript (or_empty in_conn) 1 ;;
     cmd (connectAttr upstream (shape_origin ++ attr_input) false)
   else ret tt) ;;
  cmd (connectAttr (shape_origin ++ attr_world) (primary_shape ++ attr_input) true) ;;
  cmd (setAttr (shape_origin ++ ".intermediateObject") 1) ;;
  ret shape_origin.

(** Lines 54-69. *)
Definition reference_shape (surface primary_shape attr_input attr_world : string)
    (existing : option string) : M string :=
  match existing with
  | Some s => ret s
  | None => synthesize surface primary_shape attr_input attr_world
  end.

(** Lines 72-75. *)
Definition create_pin (object_to_pin primary_shape shape_origin attr_world attr_output : string)
  : M string :=
  uv_pin <- cmd (createNode "uvPin" (object_to_pin ++ "_uvPin")) ;;
  cmd (connectAttr (primary_shape ++ attr_world) (uv_pin ++ ".deformedGeometry") false) ;;
  cmd (connectAttr (shape_origin ++ attr_output) (uv_pin ++ ".originalGeometry") false) ;;
  cmd (xform object_to_pin [0; 0; 0]%Z [0; 0; 0]%Z) ;;
  ret uv_pin.

(** Lines 77-93 with [".normalAxis"] and 1, lines 95-111 with
    [".tangentAxis"] and 0. *)
Definition axis_step (uv_pin attr : string) (default : Z) (axis : option string)
  : M unit :=
  if_str axis (set_axis uv_pin attr) (cmd (setAttr (uv_pin ++ attr) default)).

(** Lines 114-124. *)
Definition configure (object_to_pin uv_pin : string) (u v : Q)
    (local_space normalize : bool) : M unit :=
  cmd (setAttr (uv_pin ++ ".normalizedIsoParms") 0) ;;
  cmd (setAttr_float2 (uv_pin ++ ".coordinate[0]") u v) ;;
  cmd (connectAttr (uv_pin ++ ".outputMatrix[0]") (object_to_pin ++ ".offsetParentMatrix") false) ;;
  (if normalize then cmd (setAttr (uv_pin ++ ".normalizedIsoParms") 1) else ret tt) ;;
  (if local_space then cmd (setAttr (uv_pin ++ ".relativeSpaceMode") 1)
   else cmd (setAttr (object_to_pin ++ ".inheritsTransform") 0)).

Definition steps
    (object_to_pin surface : string) (u v : Q)
    (local_space normalize : bool)
    (normal_axis tangent_axis : option string) : M string :=
  found <- locate surface ;;
  let '(primary_shape, existing, (attr_input, attr_world, attr_output)) := found in
  shape_origin <- reference_shape surface primary_shape attr_input attr_world existing ;;
  uv_pin <- create_pin object_to_pin primary_shape shape_origin attr_world attr_output ;;
  axis_step uv_pin ".normalAxis" 1 normal_axis ;;
  axis_step uv_pin ".tangentAxis" 0 tangent_axis ;;
  configure object_to_pin uv_pin u v local_space normalize ;;
  ret uv_pin.

(** Where a run of the steps stops: the step that raises, or the return. *)
Inductive Run (object_to_pin surface : string) (u v : Q)
    (local_space normalize : bool) (normal_axis tangent_axis : option string)
    (s : Scene) : Outcome string -> Scene -> list Event -> Prop :=
| Run_locate e s' t :
    locate surface s = (Raised e, s', t) ->
    Run object_to_pin surface u v local_space normalize normal_axis tangent_axis s
      (Raised e) s' t
| Run_reference p existing ai aw ao sA tA e s' t :
    locate surface s = (Returned (p, existing, (ai, aw, ao)), sA, tA) ->
    reference_shape surface p ai aw existing sA = (Raised e, s', t) ->
    Run object_to_pin surface u v local_space normalize normal_axis tangent_axis s
      (Raised e) s' (tA ++ t)
| Run_create p existing ai aw ao sA tA origin sB tB e s' t :
    locate surface s = (Returned (p, existing, (ai, aw, ao)), sA, tA) ->
    reference_shape surface p ai aw existing sA = (Returned origin, sB, tB) ->
    create_pin object_to_pin p origin aw ao sB = (Raised e, s', t) ->
    Run object_to_pin surface u v local_space normalize normal_axis tangent_axis s
      (Raised e) s' (tA ++ tB ++ t)
| Run_normal p existing ai aw ao sA tA origin sB tB pin sC tC e s' t :
    locate surface s = (Returned (p, existing, (ai, aw, ao)), sA, tA) ->
    reference_shape surface p ai aw existing sA = (Returned origin, sB, tB) ->
    create_pin object_to_pin p origin aw ao sB = (Returned pin, sC, tC) ->
    axis_step pin ".normalAxis" 1 normal_axis sC = (Raised e, s', t) ->
    Run object_to_pin surface u v local_space normalize normal_axis tangent_axis s
      (Raised e) s' (tA ++ tB ++ tC ++ t)
| Run_tangent p existing ai aw ao sA tA origin sB tB pin sC tC sN tN e s' t :
    locate surface s = (Returned (p, existing, (ai, aw, ao)), sA, tA) ->
    reference_shape surface p ai aw existing sA = (Returned origin, sB, tB) ->
    create_pin object_to_pin p origin aw ao sB = (Returned pin, sC, tC) ->
    axis_step pin ".normalAxis" 1 normal_axis sC = (Returned tt, sN, tN) ->
    axis_step pin ".tangentAxis" 0 tangent_axis sN = (Raised e, s', t) ->
    Run object_to_pin surface u v local_space normalize normal_axis tangent_axis s
      (Raised e) s' (tA ++ tB ++ tC ++ tN ++ t)
| Run_configure p existing ai aw ao sA tA origin sB tB pin sC tC sN tN sT tT e s' t :
    locate surface s = (Returned (p, existing, (ai, aw, ao)), sA, tA) ->
    reference_shape surface p ai aw existing sA = (Returned origin, sB, tB) ->
    create_pin object_to_pin p origin aw ao sB = (Returned pin, sC, tC) ->
    axis_step pin ".normalAxis" 1 normal_axis sC = (Returned tt, sN, tN) ->
    axis_step pin ".tangentAxis" 0 tangent_axis sN = (Returned tt, sT, tT) ->
    configure object_to_pin pin u v local_space normalize sT = (Raised e, s', t) ->
    Run object_to_pin surface u v local_space normalize normal_axis tangent_axis s
      (Raised e) s' (tA ++ tB ++ tC ++ tN ++ tT ++ t)
| Run_return p existing ai aw ao sA tA origin sB tB pin sC tC sN tN sT tT s' t :
    locate surface s = (Returned (p, existing, (ai, aw, ao)), sA, tA) ->
    reference_shape surface p ai aw existing sA = (Returned origin, sB, tB) ->
    create_pin object_to_pin p origin aw ao sB = (Returned pin, sC, tC) ->
    axis_step pin ".normalAxis" 1 normal_axis sC = (Returned tt, sN, tN) ->
    axis_step pin ".tangentAxis" 0 tangent_axis sN = (Returned tt, sT, tT) ->
    configure object_to_pin pin u v local_space normalize sT = (Returned tt, s', t) ->
    Run object_to_pin surface u v local_space normalize normal_axis tangent_axis s
      (Returned pin) s' (tA ++ tB ++ tC ++ tN ++ tT ++ t).

(** ** Calling with keyword arguments

    The optional parameters of the signature (lines 7-13): a field left
    [None] stands for an argument the caller omits, and takes the default
    of the signature. *)
Record Keywords : Type := {
  kw_u : option Q;
  kw_v : option Q;
  kw_local_space : option bool;
  kw_normalize : option bool;
  kw_normal_axis : option string;
  kw_tangent_axis : option string;
  kw_reset_transforms : option bool
}.

Definition no_keywords : Keywords :=
  {| kw_u := None; kw_v := None; kw_local_space := None; kw_normalize := None;
     kw_normal_axis := None; kw_tangent_axis := None; kw_reset_transforms := None |}.

Definition or_default {A : Type} (x : option A) (d : A) : A :=
  match x with
  | Some a => a
  | None => d
  end.

Definition make_uv_pin_kw (object_to_pin surface : string) (k : Keywords) : M string :=
  make_uv_pin object_to_pin surface
    (or_default (kw_u k) 0%Q) (or_default (kw_v k) 0%Q)
    (or_default (kw_local_space k) false) (or_default (kw_normalize k) false)
    (kw_normal_axis k) (kw_tangent_axis k)
    (or_default (kw_reset_transforms k) true).

(** ** What the statements are about *)

(** Queries of the host leave the scene as it is. *)
Definition read_only_queries : Prop :=
  forall (c : Call) (s s1 : Scene) (a : answer c),
    is_query c = true -> host c s = Some (s1, a) -> s1 = s.

(** The shape children the host lists for [surface] in scene [s]. *)
Definition shape_children (s : Scene) (surface : string) : list string :=
  match host (listRelatives surface) s with
  | Some (_, r) => or_empty r
  | None => []
  end.

(** The host reports [flag] for the intermediate flag of [shape] in [s]. *)
Definition intermediate_is (s : Scene) (shape : string) (flag : bool) : Prop :=
  exists s1, host (getAttr (shape ++ ".intermediateObject")) s = Some (s1, flag).

End Script.

Arguments make_uv_pin {Scene} host.
Arguments make_uv_pin_kw {Scene} host.
Arguments steps {Scene} host.
Arguments locate {Scene} host.
Arguments synthesize {Scene} host.
Arguments reference_shape {Scene} host.
Arguments create_pin {Scene} host.
Arguments axis_step {Scene} host.
Arguments set_axis {Scene} host.
Arguments configure {Scene} host.
Arguments next_shape {Scene} host.
Arguments cmd {Scene} host.
Arguments throw {Scene A}.
Arguments cmds_error {Scene A}.
Arguments subscript {Scene}.
Arguments Run {Scene} host.
Arguments read_only_queries {Scene} host.
Arguments shape_children {Scene} host.
Arguments intermediate_is {Scene} host.

(** The lookup table of the axis symbols. *)
Definition axis_enum (symbol : string) : option Z :=
  if symbol =? "x" then Some 0%Z
  else if symbol =? "y" then Some 1%Z
  else if symbol =? "z" then Some 2%Z
  else if symbol =? "-x" then Some 3%Z
  else if symbol =? "-y" then Some 4%Z
  else if symbol =? "-z" then Some 5%Z
  else None.

(** The same table as data: symbol and enumeration value. *)
Definition axis_table : list (string * Z) :=
  [("x", 0%Z); ("y", 1%Z); ("z", 2%Z); ("-x", 3%Z); ("-y", 4%Z); ("-z", 5%Z)].

Definition axis_symbols : list string := map fst axis_table.

(** An axis argument that is a symbol, not empty, and not in the table. *)
Definition unknown_axis (axis : option string) : Prop :=
  exists a, axis = Some a /\ a <> "" /\ ~ In a axis_symbols.

Definition axis_message (a : string) : string :=
  a ++ " isn't a valid axis, it should be x y z -x -y -z".

(** ** The record of a run *)

(** The command of a call, by name. *)
Definition name_of (c : Call) : string :=
  match c with
  | listRelatives _ => "listRelatives"
  | getAttr _ => "getAttr"
  | objectType _ => "objectType"
  | duplicate _ => "duplicate"
  | parent _ _ => "parent"
  | delete _ => "delete"
  | rename _ _ => "rename"
  | listConnections _ => "listConnections"
  | connectAttr _ _ _ => "connectAttr"
  | setAttr _ _ => "setAttr"
  | setAttr_float2 _ _ _ => "setAttr"
  | createNode _ _ => "createNode"
  | xform _ _ _ => "xform"
  end.

Definition named (names : list string) (e : Event) : Prop :=
  In (name_of (call_of e)) names.

(** How many completed commands of a record have the given name. *)
Definition count_named (name : string) (t : list Event) : nat :=
  List.length (filter (fun e => name_of (call_of e) =? name) t).

Definition query_event (e : Event) : Prop :=
  is_query (call_of e) = true.

(** The query of a shape's intermediate flag, answered [b]. *)
Definition probe (b : bool) (shape : string) : Event :=
  Done (getAttr (shape ++ ".intermediateObject")) b.

(** The three attribute names of a supported surface type. *)
Definition surface_attrs (surface_type : string) : option (string * string * string) :=
  if surface_type =? "mesh" then Some (".inMesh", ".worldMesh[0]", ".outMesh")
  else if surface_type =? "nurbsSurface" then Some (".create", ".worldSpace[0]", ".local")
  else None.

(** What a completed synthesis of the reference shape leaves in the record. *)
Definition reroute_events (attr_input shape_origin : string)
    (in_conn : option (list string)) : list Event :=
  match in_conn with
  | Some (_ :: upstream :: _) =>
      [Done (connectAttr upstream (shape_origin ++ attr_input) false) tt]
  | _ => []
  end.

Definition synthesis_events (surface primary_shape attr_input attr_world : string)
    (copies : list string) (duplicated : string) (shape_origin_list : option (list string))
    (copy_shape shape_origin : string) (in_conn : option (list string)) : list Event :=
  [Done (duplicate primary_shape) copies;
   Done (listRelatives duplicated) shape_origin_list;
   Done (parent copy_shape surface) tt;
   Done (delete duplicated) tt;
   Done (rename copy_shape (primary_shape ++ "Orig")) shape_origin;
   Done (listConnections (primary_shape ++ attr_input)) in_conn]
  ++ reroute_events attr_input shape_origin in_conn
  ++ [Done (connectAttr (shape_origin ++ attr_world) (primary_shape ++ attr_input) true) tt;
      Done (setAttr (shape_origin ++ ".intermediateObject") 1) tt].

(** What lines 72-75 leave in the record when they complete. *)
Definition pin_events (object_to_pin primary_shape shape_origin attr_world attr_output uv_pin : string)
  : list Event :=
  [Done (createNode "uvPin" (object_to_pin ++ "_uvPin")) uv_pin;
   Done (connectAttr (primary_shape ++ attr_world) (uv_pin ++ ".deformedGeometry") false) tt;
   Done (connectAttr (shape_origin ++ attr_output) (uv_pin ++ ".originalGeometry") false) tt;
   Done (xform object_to_pin [0; 0; 0]%Z [0; 0; 0]%Z) tt].

(** The enumeration value an axis argument selects: the table for a
    symbol, the default for [None] and for the empty string. *)
Definition axis_choice (default : Z) (axis : option string) : option Z :=
  if_str axis axis_enum (Some default).

(** What lines 114-124 leave in the record when they complete. *)
Definition configure_events (object_to_pin uv_pin : string) (u v : Q)
    (local_space normalize : bool) : list Event :=
  [Done (setAttr (uv_pin ++ ".normalizedIsoParms") 0) tt;
   Done (setAttr_float2 (uv_pin ++ ".coordinate[0]") u v) tt;
   Done (connectAttr (uv_pin ++ ".outputMatrix[0]") (object_to_pin ++ ".offsetParentMatrix") false) tt]
  ++ (if normalize then [Done (setAttr (uv_pin ++ ".normalizedIsoParms") 1) tt] else [])
  ++ [if local_space then Done (setAttr (uv_pin ++ ".relativeSpaceMode") 1) tt
      else Done (setAttr (object_to_pin ++ ".inheritsTransform") 0) tt].

(** What lines 72-124 leave in the record when they complete, for the
    axis values [normal] and [tangent]. *)
Definition wiring_events (object_to_pin primary_shape shape_origin attr_world attr_output uv_pin : string)
    (normal tangent : Z) (u v : Q) (local_space normalize : bool) : list Event :=
  pin_events object_to_pin primary_shape shape_origin attr_world attr_output uv_pin
  ++ [Done (setAttr (uv_pin ++ ".normalAxis") normal) tt;
      Done (setAttr (uv_pin ++ ".tangentAxis") tangent) tt]
  ++ configure_events object_to_pin uv_pin u v local_space normalize.

(** The last [n] characters of a string, the last one first. *)
Definition ending (n : nat) (s : string) : list ascii :=
  firstn n (rev (list_ascii_of_string s)).

(** ** A stand-in host

    A small scene graph that answers the commands the way the host does on
    well-formed scenes: nodes with a type and a parent, integer attributes,
    float pairs, connections between plugs and local poses.  It refuses a
    command (the command raises) on a node that does not exist, on a node
    name that is taken, and on a connection into a plug that is already
    driven unless it is forced. *)
Module Studio.

Record Node : Type := {
  node_name : string;
  node_type : string;
  node_parent : option string
}.

Record Graph : Type := {
  nodes : list Node;
  flags : list (string * Z);
  coordinates : list (string * (Q * Q));
  wires : list (string * string);
  poses : list (string * (list Z * list Z))
}.

Fixpoint lookup {A : Type} (k : string) (l : list (string * A)) : option A :=
  match l with
  | [] => None
  | (k1, a) :: rest => if k1 =? k then Some a else lookup k rest
  end.

Definition find_node (g : Graph) (n : string) : option Node :=
  find (fun x => node_name x =? n) (nodes g).

Definition has_node (g : Graph) (n : string) : bool :=
  match find_node g n with
  | Some _ => true
  | None => false
  end.

(** The node of a plug: what stands before the first dot. *)
Fixpoint node_of_plug (plug : string) : string :=
  match plug with
  | EmptyString => EmptyString
  | String c rest => if Ascii.eqb c "."%char then EmptyString else String c (node_of_plug rest)
  end.

Definition is_child_shape (n : string) (x : Node) : bool :=
  match node_parent x with
  | Some p => (p =? n) && negb (node_type x =? "transform")
  | None => false
  end.

Definition child_shapes (g : Graph) (n : string) : list Node :=
  filter (is_child_shape n) (nodes g).

Definition some_if_any (l : list string) : option (list string) :=
  match l with
  | [] => None
  | _ :: _ => Some l
  end.

Definition with_nodes (g : Graph) (l : list Node) : Graph :=
  {| nodes := l; flags := flags g; coordinates := coordinates g;
     wires := wires g; poses := poses g |}.

Definition with_wires (g : Graph) (l : list (string * string)) : Graph :=
  {| nodes := nodes g; flags := flags g; coordinates := coordinates g;
     wires := l; poses := poses g |}.

Definition renamed (old new : string) (x : Node) : Node :=
  {| node_name := if node_name x =? old then new else node_name x;
     node_type := node_type x;
     node_parent :=
       match node_parent x with
       | Some p => Some (if p =? old then new else p)
       | None => None
       end |}.

Definition connections_of (plug : string) (w : string * string) : list string :=
  if snd w =? plug then [plug; fst w]
  else if fst w =? plug then [plug; snd w]
  else [].

Definition handle (c : Call) (g : Graph) : option (Graph * answer c) :=
  match c as c0 return option (Graph * answer c0) with
  | listRelatives n =>
      if has_node g n
      then Some (g, some_if_any (map node_name (child_shapes g n)))
      else None
  | getAttr plug =>
      if has_node g (node_of_plug plug)
      then Some (g, match lookup plug (flags g) with
                    | Some v => negb (v =? 0)%Z
                    | None => false
                    end)
      else None
  | objectType n =>
      match find_node g n with
      | Some x => Some (g, node_type x)
      | None => None
      end
  | duplicate n =>
      match find_node g n with
      | Some x =>
          match node_parent x with
          | Some p =>
              let copy := p ++ "_copy" in
              if has_node g copy then None
              else
                let shapes :=
                  map (fun y => {| node_name := node_name y ++ "_copy";
                                   node_type := node_type y;
                                   node_parent := Some copy |})
                      (child_shapes g p) in
                Some (with_nodes g
                        (nodes g ++ {| node_name := copy; node_type := "transform";
                                       node_parent := None |} :: shapes)%list,
                      [copy])
          | None => None
          end
      | None => None
      end
  | parent child new_parent =>
      if has_node g child && has_node g new_parent
      then Some (with_nodes g
                   (map (fun x => if node_name x =? child
                                  then {| node_name := node_name x;
                                          node_type := node_type x;
                                          node_parent := Some new_parent |}
                                  else x) (nodes g)), tt)
      else None
  | delete n =>
      if has_node g n
      then Some (with_nodes g
                   (filter (fun x => negb (node_name x =? n)
                                     && match node_parent x with
                                        | Some p => negb (p =? n)
                                        | None => true
                                        end) (nodes g)), tt)
      else None
  | rename n new_name =>
      if has_node g n && negb (has_node g new_name)
      then Some (with_nodes g (map (renamed n new_name) (nodes g)), new_name)
      else None
  | listConnections plug =>
      if has_node g (node_of_plug plug)
      then Some (g, some_if_any (flat_map (connections_of plug) (wires g)))
      else None
  | connectAttr source destination force =>
      if has_node g (node_of_plug source) && has_node g (node_of_plug destination)
      then
        if existsb (fun w => snd w =? destination) (wires g)
        then
          if force
          then Some (with_wires g
                       ((source, destination)
                        :: filter (fun w => negb (snd w =? destination)) (wires g)), tt)
          else None
        else Some (with_wires g ((source, destination) :: wires g), tt)
      else None
  | setAttr plug value =>
      if has_node g (node_of_plug plug)
      then Some ({| nodes := nodes g; flags := (plug, value) :: flags g;
                    coordinates := coordinates g; wires := wires g;
                    poses := poses g |}, tt)
      else None
  | setAttr_float2 plug u v =>
      if has_node g (node_of_plug plug)
      then Some ({| nodes := nodes g; flags := flags g;
                    coordinates := (plug, (u, v)) :: coordinates g;
                    wires := wires g; poses := poses g |}, tt)
      else None
  | createNode node_type name =>
      if has_node g name then None
      else Some (with_nodes g
                   (nodes g ++ [{| node_name := name; node_type := node_type;
                                   node_parent := None |}])%list, name)
  | xform n translation rotation =>
      if has_node g n
      then Some ({| nodes := nodes g; flags := flags g;
                    coordinates := coordinates g; wires := wires g;
                    poses := (n, (translation, rotation)) :: poses g |}, tt)
      else None
  end.

Definition transform (n : string) : Node :=
  {| node_name := n; node_type := "transform"; node_parent := None |}.

Definition shape (n type under : string) : Node :=
  {| node_name := n; node_type := type; node_parent := Some under |}.

(** A polygon cube fed by its construction node, and a locator to pin. *)
Definition cube : Graph :=
  {| nodes := [transform "pCube1"; shape "pCubeShape1" "mesh" "pCube1";
               {| node_name := "polyCube1"; node_type := "polyCube"; node_parent := None |};
               transform "locator1"; shape "locatorShape1" "locator" "locator1"];
     flags := [];
     coordinates := [];
     wires := [("polyCube1.output", "pCubeShape1.inMesh")];
     poses := [] |}.

(** A NURBS plane without history that already has its intermediate shape. *)
Definition plane : Graph :=
  {| nodes := [transform "nurbsPlane1";
               shape "nurbsPlaneShape1" "nurbsSurface" "nurbsPlane1";
               shape "nurbsPlaneShape1Orig" "nurbsSurface" "nurbsPlane1";
               transform "locator1"; shape "locatorShape1" "locator" "locator1"];
     flags := [("nurbsPlaneShape1Orig.intermediateObject", 1%Z)];
     coordinates := [];
     wires := [];
     poses := [] |}.

(** A mesh whose shapes are all flagged intermediate. *)
Definition ghost : Graph :=
  {| nodes := [transform "ghost1"; shape "ghostShape1" "mesh" "ghost1";
               shape "ghostShape2" "mesh" "ghost1";
               transform "locator1"; shape "locatorShape1" "locator" "locator1"];
     flags := [("ghostShape1.intermediateObject", 1%Z);
               ("ghostShape2.intermediateObject", 1%Z)];
     coordinates := [];
     wires := [];
     poses := [] |}.

(** An empty group, and a curve: no shape, and a shape that is no surface. *)
Definition odd : Graph :=
  {| nodes := [transform "group1";
               transform "curve1"; shape "curveShape1" "nurbsCurve" "curve1";
               transform "locator1"; shape "locatorShape1" "locator" "locator1"];
     flags := [];
     coordinates := [];
     wires := [];
     poses := [] |}.



(** A host like [handle], except that [duplicate] copies nothing and
    answers an empty list. *)
Definition handle_silent (c : Call) (g : Graph) : option (Graph * answer c) :=
  match c as c0 return option (Graph * answer c0) with
  | duplicate n => if has_node g n then Some (g, []) else None
  | c0 => handle c0 g
  end.

End Studio.

(** * Proofs *)

Local Open Scope list_scope.

Section Runs.

Variable Scene : Type.
Variable host : forall c : Call, Scene -> option (Scene * answer c).

#[local] Existing Instance Monad_M.

(** ** Running a sequence *)

Lemma bind_inv (A B : Type) (m : M Scene A) (f : A -> M Scene B)
    (s s' : Scene) (o : Outcome B) (t : list Event) :
  (x <- m ;; f x) s = (o, s', t) ->
  (exists e, m s = (Raised e, s', t) /\ o = Raised e) \/
  (exists a s1 t1 t2,
      m s = (Returned a, s1, t1) /\ f a s1 = (o, s', t2) /\ t = t1 ++ t2).
Proof.
  cbn. destruct (m s) as [[[a | e] s1] t1].
  - destruct (f a s1) as [[o2 s2] t2] eqn:Ef. intros H. injection H as <- <- <-.
    right. exists a, s1, t1, t2. auto.
  - intros H. injection H as <- <- <-. left. exists e. auto.
Qed.

Lemma cmd_inv (c : Call) (s s' : Scene) (o : Outcome (answer c)) (t : list Event) :
  cmd host c s = (o, s', t) ->
  (host c s = None /\ o = Raised (HostException c) /\ s' = s /\ t = []) \/
  (exists a, host c s = Some (s', a) /\ o = Returned a /\ t = [Done c a]).
Proof.
  unfold cmd. destruct (host c s) as [[s1 a] | ].
  - intros H. injection H as <- <- <-. right. exists a. auto.
  - intros H. injection H as <- <- <-. left. auto.
Qed.

(** Sequencing is associative, run by run. *)
Lemma bind_assoc (A B C : Type) (m : M Scene A) (f : A -> M Scene B)
    (g : B -> M Scene C) (s : Scene) :
  (y <- (x <- m ;; f x) ;; g y) s = (x <- m ;; y <- f x ;; g y) s.
Proof.
  cbn. destruct (m s) as [[[a | e] s1] t1]; [ | reflexivity].
  destruct (f a s1) as [[[b | e] s2] t2]; [ | reflexivity].
  destruct (g b s2) as [[o s3] t3]. now rewrite app_assoc.
Qed.

Lemma bind_ext (A B : Type) (m : M Scene A) (f g : A -> M Scene B) (s : Scene) :
  (forall a s1, f a s1 = g a s1) ->
  (x <- m ;; f x) s = (x <- m ;; g x) s.
Proof.
  intros H. cbn. destruct (m s) as [[[a | e] s1] t1]; [ | reflexivity].
  now rewrite H.
Qed.

Lemma bind_ret (A B : Type) (a : A) (f : A -> M Scene B) (s : Scene) :
  (x <- ret a ;; f x) s = f a s.
Proof.
  cbn. now destruct (f a s) as [[o s1] t1].
Qed.

Lemma make_uv_pin_steps
    (object_to_pin surface : string) (u v : Q) (local_space normalize : bool)
    (normal_axis tangent_axis : option string) (reset_transforms : bool)
    (s : Scene) :
  make_uv_pin host object_to_pin surface u v local_space normalize
    normal_axis tangent_axis reset_transforms s
  = steps host object_to_pin surface u v local_space normalize
      normal_axis tangent_axis s.
Proof.
  unfold make_uv_pin, steps, locate.
  repeat (rewrite bind_assoc; apply bind_ext; intros).
  rewrite bind_ret. destruct a5 as [[attr_input attr_world] attr_output].
  unfold reference_shape, synthesize. apply bind_ext. intros.
  unfold create_pin. repeat (rewrite bind_assoc; apply bind_ext; intros).
  rewrite bind_ret. unfold axis_step. do 2 (apply bind_ext; intros).
  unfold configure. repeat (rewrite bind_assoc; apply bind_ext; intros).
  reflexivity.
Qed.

(** ** Symbolic execution of a run *)

Lemma ret_inv (A : Type) (a : A) (s s' : Scene) (o : Outcome A) (t : list Event) :
  (ret a : M Scene A) s = (o, s', t) -> o = Returned a /\ s' = s /\ t = [].
Proof. cbn. intros H. injection H as <- <- <-. auto. Qed.

Lemma throw_inv (A : Type) (e : Fault) (s s' : Scene) (o : Outcome A) (t : list Event) :
  (throw e : M Scene A) s = (o, s', t) -> o = Raised e /\ s' = s /\ t = [].
Proof. unfold throw. intros H. injection H as <- <- <-. auto. Qed.

Lemma subscript_inv (l : list string) (n : nat) (s s' : Scene)
    (o : Outcome string) (t : list Event) :
  subscript l n s = (o, s', t) ->
  s' = s /\ t = [] /\
  ((exists x, nth_error l n = Some x /\ o = Returned x) \/
   (nth_error l n = None /\ o = Raised IndexError)).
Proof.
  unfold subscript. destruct (nth_error l n) as [x | ].
  - intros H. apply ret_inv in H as (-> & -> & ->). eauto 6.
  - intros H. apply throw_inv in H as (-> & -> & ->). eauto 6.
Qed.

Lemma cmd_bind_inv (B : Type) (c : Call) (f : answer c -> M Scene B)
    (s s' : Scene) (o : Outcome B) (t : list Event) :
  (x <- cmd host c ;; f x) s = (o, s', t) ->
  (host c s = None /\ o = Raised (HostException c) /\ s' = s /\ t = []) \/
  (exists a s1 t2, host c s = Some (s1, a) /\ f a s1 = (o, s', t2) /\ t = Done c a :: t2).
Proof.
  intros H. apply bind_inv in H as [(e & Hm & ->) | (a & s1 & t1 & t2 & Hm & Hf & ->)];
    apply cmd_inv in Hm as [(Hh & Ho & -> & ->) | (x & Hh & Ho & ->)];
    try discriminate.
  - injection Ho as ->. auto.
  - injection Ho as ->. right. exists x, s1, t2. auto.
Qed.

Lemma subscript_bind_inv (B : Type) (l : list string) (n : nat) (f : string -> M Scene B)
    (s s' : Scene) (o : Outcome B) (t : list Event) :
  (x <- subscript l n ;; f x) s = (o, s', t) ->
  (nth_error l n = None /\ o = Raised IndexError /\ s' = s /\ t = []) \/
  (exists x, nth_error l n = Some x /\ f x s = (o, s', t)).
Proof.
  intros H. apply bind_inv in H as [(e & Hm & ->) | (a & s1 & t1 & t2 & Hm & Hf & ->)];
    apply subscript_inv in Hm as (-> & -> & [(x & Hx & Ho) | (Hx & Ho)]);
    try discriminate.
  - injection Ho as ->. auto.
  - injection Ho as ->. right. exists x. auto.
Qed.

Ltac settle Ho :=
  first [ discriminate Ho | injection Ho as Ho; subst | subst ].

Ltac run_cmd H :=
  let a := fresh "a" in
  let s1 := fresh "s" in
  let t1 := fresh "t" in
  let Hh := fresh "Hh" in
  let Ho := fresh "Ho" in
  let Hs := fresh "Hs" in
  let Ht := fresh "Ht" in
  apply cmd_bind_inv in H;
  destruct H as [(Hh & Ho & Hs & Ht) | (a & s1 & t1 & Hh & H & Ht)];
  [ settle Ho
  | subst; try (cbn [answer] in a; match type of a with unit => destruct a end) ].

Ltac run_subscript H :=
  let x := fresh "x" in
  let Hx := fresh "Hx" in
  let Ho := fresh "Ho" in
  let Hs := fresh "Hs" in
  let Ht := fresh "Ht" in
  apply subscript_bind_inv in H;
  destruct H as [(Hx & Ho & Hs & Ht) | (x & Hx & H)];
  [ settle Ho | ].

Ltac run_bind H :=
  let e := fresh "e" in
  let a := fresh "a" in
  let s1 := fresh "s" in
  let t1 := fresh "t" in
  let t2 := fresh "t" in
  let Hm := fresh "Hm" in
  apply bind_inv in H;
  destruct H as [(e & Hm & ->) | (a & s1 & t1 & t2 & Hm & H & ->)].

Ltac run_end H :=
  let Ho := fresh "Ho" in
  let Hs := fresh "Hs" in
  let Ht := fresh "Ht" in
  destruct H as (Ho & Hs & Ht);
  settle Ho.

Ltac run_ret H := apply ret_inv in H; run_end H.

Ltac cmd_cases H :=
  match type of H with
  | cmd _ ?c _ = _ => apply (cmd_inv c) in H
  end.

Ltac run_throw H := unfold cmds_error in H; apply throw_inv in H; run_end H.

(** ** The two scans of the shapes *)

Lemma eqb_flag (b flag : bool) :
  (Bool.eqb b flag = true /\ b = flag) \/ (Bool.eqb b flag = false /\ b = negb flag).
Proof. destruct b, flag; auto. Qed.

(** The record of a scan: the shapes before the one it stops at answered
    the other way. *)
Lemma next_shape_inv (flag : bool) (shapes : list string) :
  forall (s s' : Scene) (o : Outcome (option string)) (t : list Event),
  next_shape host flag shapes s = (o, s', t) ->
  match o with
  | Returned (Some x) =>
      exists pre post, shapes = pre ++ x :: post /\
        t = map (probe (negb flag)) pre ++ [probe flag x]
  | Returned None => t = map (probe (negb flag)) shapes
  | Raised e =>
      exists pre x post, shapes = pre ++ x :: post /\
        t = map (probe (negb flag)) pre /\
        e = HostException (getAttr (x ++ ".intermediateObject"))
  end.
Proof.
  induction shapes as [ | x rest IH]; intros s s' o t H.
  - run_ret H. reflexivity.
  - cbn [next_shape] in H. run_cmd H.
    + exists [], x, rest. auto.
    + destruct (eqb_flag a flag) as [(E & ->) | (E & ->)]; rewrite E in H.
      * run_ret H. exists [], rest. auto.
      * apply IH in H. destruct o as [[y | ] | e].
        -- destruct H as (pre & post & -> & ->). exists (x :: pre), post. auto.
        -- now subst.
        -- destruct H as (pre & y & post & -> & -> & ->).
           exists (x :: pre), y, post. auto.
Qed.

(** On a host whose queries leave the scene alone, a scan reports what the
    scene holds. *)
Lemma next_shape_sound (flag : bool) (shapes : list string) :
  read_only_queries host ->
  forall (s s' : Scene) (o : Outcome (option string)) (t : list Event),
  next_shape host flag shapes s = (o, s', t) ->
  s' = s /\
  match o with
  | Returned (Some x) =>
      exists pre post, shapes = pre ++ x :: post /\
        (forall y, In y pre -> intermediate_is host s y (negb flag)) /\
        intermediate_is host s x flag
  | Returned None => forall y, In y shapes -> intermediate_is host s y (negb flag)
  | Raised _ => True
  end.
Proof.
  intros RO. induction shapes as [ | x rest IH]; intros s s' o t H.
  - run_ret H. split; [reflexivity | intros y []].
  - cbn [next_shape] in H. run_cmd H; [auto | ].
    assert (s0 = s) as -> by (eapply RO; [ | exact Hh]; reflexivity).
    destruct (eqb_flag a flag) as [(E & ->) | (E & ->)]; rewrite E in H.
    + run_ret H. split; [reflexivity | ].
      exists [], rest. repeat split; [intros y [] | now exists s].
    + apply IH in H as (-> & H). split; [reflexivity | ].
      destruct o as [[y | ] | e]; [ | | exact I].
      * destruct H as (pre & post & -> & Hpre & Hy).
        exists (x :: pre), post. repeat split; [ | exact Hy].
        intros z [<- | Hz]; [now exists s | auto].
      * intros z [<- | Hz]; [now exists s | auto].
Qed.

(** ** Sorting events by command *)

Lemma named_incl (l l' : list string) (e : Event) :
  incl l l' -> named l e -> named l' e.
Proof. unfold named. auto. Qed.

Ltac named_tac :=
  repeat first
    [ match goal with
      | H : Forall (named _) ?t |- Forall (named _) ?t =>
          revert H; apply Forall_impl; intros ? ?;
          eapply named_incl; [ | eassumption];
          intros ? ?; simpl in *; tauto
      end
    | apply Forall_nil
    | apply Forall_cons
    | apply Forall_app; split ];
  try (unfold named; simpl; tauto).

Lemma probes_named (b : bool) (l : list string) :
  Forall (named ["getAttr"]) (map (probe b) l).
Proof.
  induction l as [ | x l IH]; cbn [map]; named_tac.
Qed.

Lemma next_shape_named (flag : bool) (shapes : list string)
    (s s' : Scene) (o : Outcome (option string)) (t : list Event) :
  next_shape host flag shapes s = (o, s', t) -> Forall (named ["getAttr"]) t.
Proof.
  intros H. apply next_shape_inv in H. destruct o as [[x | ] | e].
  - destruct H as (pre & post & _ & ->). pose proof (probes_named (negb flag) pre).
    named_tac.
  - subst. apply probes_named.
  - destruct H as (pre & x & post & _ & -> & _). apply probes_named.
Qed.

Lemma named_query (e : Event) :
  named ["listRelatives"; "getAttr"; "objectType"] e -> query_event e.
Proof.
  destruct e as [c a]. unfold named, query_event. cbn [call_of].
  destruct c; simpl; intros H; try reflexivity;
    repeat (destruct H as [H | H]; try discriminate H); contradiction.
Qed.

(** ** Lines 32-51 *)

Lemma surface_attrs_inv (ty : string) (attrs : string * string * string) :
  surface_attrs ty = Some attrs ->
  (ty = "mesh"%string /\ attrs = (".inMesh", ".worldMesh[0]", ".outMesh")%string) \/
  (ty = "nurbsSurface"%string /\ attrs = (".create", ".worldSpace[0]", ".local")%string).
Proof.
  unfold surface_attrs.
  destruct (String.eqb_spec ty "mesh"); [intros H; injection H; auto | ].
  destruct (String.eqb_spec ty "nurbsSurface"); [intros H; injection H; auto | ].
  discriminate.
Qed.

Lemma locate_inv (surface : string) (s s' : Scene)
    (o : Outcome (string * option string * (string * string * string)))
    (t : list Event) :
  locate host surface s = (o, s', t) ->
  match o with
  | Returned (p, existing, attrs) =>
      exists r first rest found ty s1 s2 s3 t1 t2,
        host (listRelatives surface) s = Some (s1, r) /\
        or_empty r = first :: rest /\
        next_shape host false (first :: rest) s1 = (Returned found, s2, t1) /\
        p = match found with Some x => x | None => first end /\
        next_shape host true (first :: rest) s2 = (Returned existing, s3, t2) /\
        host (objectType p) s3 = Some (s', ty) /\
        surface_attrs ty = Some attrs /\
        t = Done (listRelatives surface) r :: t1 ++ t2 ++ [Done (objectType p) ty]
  | Raised e =>
      (exists r s1,
          host (listRelatives surface) s = Some (s1, r) /\ or_empty r = [] /\
          e = SceneError ("No shape nodes found on surface: " ++ surface) /\
          t = [Done (listRelatives surface) r]) \/
      (exists p ty pre,
          t = pre ++ [Done (objectType p) ty] /\
          Forall (named ["listRelatives"; "getAttr"]) pre /\
          surface_attrs ty = None /\
          e = SceneError ("Unsupported surface type: " ++ ty)) \/
      (exists c, e = HostException c /\
                 Forall (named ["listRelatives"; "getAttr"]) t)
  end.
Proof.
  unfold locate. intros H. run_cmd H.
  { right. right. eexists. split; [reflexivity | named_tac]. }
  destruct (or_empty a) as [ | first rest] eqn:Hshapes.
  { run_bind H; run_throw Hm. left. do 2 eexists. eauto. }
  run_bind H; run_ret Hm.
  run_subscript H; [discriminate | ]. injection Hx as <-.
  run_bind H.
  { pose proof (next_shape_named _ _ _ _ _ _ Hm) as N. apply next_shape_inv in Hm.
    destruct Hm as (pre & x & post & _ & _ & ->).
    right. right. eexists. split; [reflexivity | named_tac]. }
  pose proof (next_shape_named _ _ _ _ _ _ Hm) as N1.
  run_bind H.
  { pose proof (next_shape_named _ _ _ _ _ _ Hm0) as N. apply next_shape_inv in Hm0.
    destruct Hm0 as (pre & x & post & _ & _ & ->).
    right. right. eexists. split; [reflexivity | named_tac]. }
  pose proof (next_shape_named _ _ _ _ _ _ Hm0) as N2.
  run_cmd H.
  { right. right. eexists. split; [reflexivity | named_tac]. }
  set (p := match a0 with Some x => x | None => first end) in *.
  assert (surface_attrs a2 =
          if (a2 =? "mesh")%string then Some (".inMesh", ".worldMesh[0]", ".outMesh")%string
          else if (a2 =? "nurbsSurface")%string
               then Some (".create", ".worldSpace[0]", ".local")%string
               else None) as Hty by reflexivity.
  destruct (a2 =? "mesh")%string;
    [ | destruct (a2 =? "nurbsSurface")%string ];
    run_bind H; try run_ret Hm1; try run_throw Hm1; try run_ret H.
  - exists a, first, rest, a0, a2, s0, s1, s2, t, t1. cbn [app]. auto 10.
  - exists a, first, rest, a0, a2, s0, s1, s2, t, t1. cbn [app]. auto 10.
  - right. left. exists p, a2, (Done (listRelatives surface) a :: t ++ t1).
    cbn [app]. rewrite <- app_assoc. repeat split; [named_tac | exact Hty].
Qed.

(** ** Lines 54-69 *)

Lemma reroute_named (ai origin : string) (conn : option (list string)) :
  Forall (named ["connectAttr"]) (reroute_events ai origin conn).
Proof.
  destruct conn as [[ | me [ | up more]] | ]; cbn [reroute_events]; named_tac.
Qed.

Lemma synthesize_inv (surface p ai aw : string)
    (s s' : Scene) (o : Outcome string) (t : list Event) :
  synthesize host surface p ai aw s = (o, s', t) ->
  match o with
  | Returned origin =>
      exists copies dup sl tmp conn,
        nth_error copies 0 = Some dup /\
        nth_error (or_empty sl) 0 = Some tmp /\
        (truthy conn = false \/ exists me up more, conn = Some (me :: up :: more)) /\
        t = synthesis_events surface p ai aw copies dup sl tmp origin conn
  | Raised e =>
      Forall (named ["duplicate"; "listRelatives"; "parent"; "delete"; "rename";
                     "listConnections"; "connectAttr"; "setAttr"]) t /\
      (e = SceneError "Could not create intermediate shape." \/
       e = IndexError \/ exists c, e = HostException c)
  end.
Proof.
  unfold synthesize. intros H.
  run_cmd H; [split; [named_tac | eauto] | ].
  run_subscript H; [split; [named_tac | eauto] | ].
  run_cmd H; [split; [named_tac | eauto] | ].
  run_bind H.
  { destruct (truthy a0); [run_ret Hm | run_throw Hm]. split; [named_tac | eauto]. }
  destruct (truthy a0) eqn:Ha0; [run_ret Hm | run_throw Hm].
  run_subscript H; [split; [named_tac | eauto] | ].
  run_cmd H; [split; [named_tac | eauto] | ].
  run_cmd H; [split; [named_tac | eauto] | ].
  run_cmd H; [split; [named_tac | eauto] | ].
  run_cmd H; [split; [named_tac | eauto] | ].
  run_bind H.
  { destruct (truthy a2); [ | run_ret Hm].
    run_subscript Hm; [split; [named_tac | eauto] | ].
    cmd_cases Hm; destruct Hm as [(_ & Ho & _ & ->) | (y & _ & Ho & _)]; [ | discriminate].
    injection Ho as ->. split; [named_tac | eauto]. }
  assert (t = reroute_events ai a1 a2 /\
          (truthy a2 = false \/ exists me up more, a2 = Some (me :: up :: more)))
    as (-> & Hconn).
  { destruct a2 as [[ | me [ | up more]] | ]; cbn [truthy] in Hm.
    - run_ret Hm. auto.
    - run_subscript Hm; discriminate.
    - run_subscript Hm. injection Hx1 as <-.
      cmd_cases Hm; destruct Hm as [(_ & Ho & _ & _) | ([] & _ & _ & ->)]; [discriminate | ].
      split; [reflexivity | right; exists me, up, more; reflexivity].
    - run_ret Hm. auto. }
  clear Hm. pose proof (reroute_named ai a1 a2) as N.
  run_cmd H; [split; [named_tac | eauto] | ].
  run_cmd H; [split; [named_tac | eauto] | ].
  run_ret H. exists a, x, a0, x0, a2. repeat split; auto.
Qed.

Lemma reference_shape_inv (surface p ai aw : string) (existing : option string)
    (s s' : Scene) (o : Outcome string) (t : list Event) :
  reference_shape host surface p ai aw existing s = (o, s', t) ->
  match o with
  | Returned origin =>
      (existing = Some origin /\ t = []) \/
      (existing = None /\
       exists copies dup sl tmp conn,
         nth_error copies 0 = Some dup /\
         nth_error (or_empty sl) 0 = Some tmp /\
         (truthy conn = false \/ exists me up more, conn = Some (me :: up :: more)) /\
         t = synthesis_events surface p ai aw copies dup sl tmp origin conn)
  | Raised e =>
      existing = None /\
      Forall (named ["duplicate"; "listRelatives"; "parent"; "delete"; "rename";
                     "listConnections"; "connectAttr"; "setAttr"]) t /\
      (e = SceneError "Could not create intermediate shape." \/
       e = IndexError \/ exists c, e = HostException c)
  end.
Proof.
  unfold reference_shape. destruct existing as [x | ]; intros H.
  - run_ret H. auto.
  - apply synthesize_inv in H. destruct o; auto.
Qed.

Lemma synthesis_events_named (surface p ai aw : string) (copies : list string)
    (dup : string) (sl : option (list string)) (tmp origin : string)
    (conn : option (list string)) :
  Forall (named ["duplicate"; "listRelatives"; "parent"; "delete"; "rename";
                 "listConnections"; "connectAttr"; "setAttr"])
    (synthesis_events surface p ai aw copies dup sl tmp origin conn).
Proof.
  unfold synthesis_events. pose proof (reroute_named ai origin conn) as N.
  cbn [app]. named_tac.
Qed.

(** ** Lines 72-75 *)

Lemma create_pin_inv (object_to_pin p origin aw ao : string)
    (s s' : Scene) (o : Outcome string) (t : list Event) :
  create_pin host object_to_pin p origin aw ao s = (o, s', t) ->
  (exists pin, o = Returned pin /\ t = pin_events object_to_pin p origin aw ao pin) \/
  (o = Raised (HostException (createNode "uvPin" (object_to_pin ++ "_uvPin"))) /\ t = []) \/
  (exists pin,
      (o = Raised (HostException
             (connectAttr (p ++ aw) (pin ++ ".deformedGeometry") false)) /\
       t = firstn 1 (pin_events object_to_pin p origin aw ao pin)) \/
      (o = Raised (HostException
             (connectAttr (origin ++ ao) (pin ++ ".originalGeometry") false)) /\
       t = firstn 2 (pin_events object_to_pin p origin aw ao pin)) \/
      (o = Raised (HostException (xform object_to_pin [0; 0; 0]%Z [0; 0; 0]%Z)) /\
       t = firstn 3 (pin_events object_to_pin p origin aw ao pin))).
Proof.
  unfold create_pin. intros H.
  run_cmd H; [auto | ].
  run_cmd H; [right; right; exists a; auto | ].
  run_cmd H; [right; right; exists a; auto | ].
  run_cmd H; [right; right; exists a; auto | ].
  run_ret H. left. exists a. auto.
Qed.

Lemma create_pin_returned (object_to_pin p origin aw ao pin : string)
    (s s' : Scene) (t : list Event) :
  create_pin host object_to_pin p origin aw ao s = (Returned pin, s', t) ->
  t = pin_events object_to_pin p origin aw ao pin.
Proof.
  intros H. apply create_pin_inv in H.
  destruct H as [(x & Ho & ->) | [(Ho & _) | (x & [(Ho & _) | [(Ho & _) | (Ho & _)]])]];
    try discriminate Ho.
  now injection Ho as ->.
Qed.

Lemma pin_events_named (object_to_pin p origin aw ao pin : string) (n : nat) :
  Forall (named ["createNode"; "connectAttr"; "xform"])
    (firstn n (pin_events object_to_pin p origin aw ao pin)).
Proof.
  do 5 (destruct n as [ | n]; [cbn; named_tac | ]). cbn. named_tac.
Qed.

(** ** Lines 77-111 *)

Lemma set_axis_inv (pin attr axis : string)
    (s s' : Scene) (o : Outcome unit) (t : list Event) :
  set_axis host pin attr axis s = (o, s', t) ->
  match axis_enum axis with
  | Some k =>
      (o = Returned tt /\ t = [Done (setAttr (pin ++ attr) k) tt]) \/
      (o = Raised (HostException (setAttr (pin ++ attr) k)) /\ t = [])
  | None =>
      o = Raised (ArgumentError
                    (axis ++ " isn't a valid axis, it should be x y z -x -y -z")) /\
      t = [] /\ s' = s
  end.
Proof.
  unfold set_axis, axis_enum.
  repeat match goal with
         | |- context [(axis =? ?x)%string] => destruct (axis =? x)%string
         end;
    intros H;
    try (run_throw H; auto);
    cmd_cases H; destruct H as [(_ & -> & _ & ->) | ([] & _ & -> & ->)]; auto.
Qed.

Lemma axis_step_inv (pin attr : string) (default : Z) (axis : option string)
    (s s' : Scene) (o : Outcome unit) (t : list Event) :
  axis_step host pin attr default axis s = (o, s', t) ->
  match axis_choice default axis with
  | Some k =>
      (o = Returned tt /\ t = [Done (setAttr (pin ++ attr) k) tt]) \/
      (o = Raised (HostException (setAttr (pin ++ attr) k)) /\ t = [])
  | None =>
      exists a, axis = Some a /\
        o = Raised (ArgumentError
                      (a ++ " isn't a valid axis, it should be x y z -x -y -z")) /\
        t = [] /\ s' = s
  end.
Proof.
  unfold axis_step, axis_choice, if_str. destruct axis as [[ | c a] | ].
  - intros H. cmd_cases H; destruct H as [(_ & -> & _ & ->) | ([] & _ & -> & ->)]; auto.
  - intros H. apply set_axis_inv in H. destruct (axis_enum (String c a)); [exact H | ].
    exists (String c a). auto.
  - intros H. cmd_cases H; destruct H as [(_ & -> & _ & ->) | ([] & _ & -> & ->)]; auto.
Qed.

(** ** Lines 114-124 *)

Lemma configure_inv (object_to_pin pin : string) (u v : Q) (local_space normalize : bool)
    (s s' : Scene) (o : Outcome unit) (t : list Event) :
  configure host object_to_pin pin u v local_space normalize s = (o, s', t) ->
  (o = Returned tt /\
   t = configure_events object_to_pin pin u v local_space normalize) \/
  (exists c, o = Raised (HostException c) /\
             Forall (named ["setAttr"; "connectAttr"]) t).
Proof.
  unfold configure, configure_events. intros H.
  run_cmd H; [right; eexists; split; [reflexivity | named_tac] | ].
  run_cmd H; [right; eexists; split; [reflexivity | named_tac] | ].
  run_cmd H; [right; eexists; split; [reflexivity | named_tac] | ].
  destruct normalize; run_bind H.
  - cmd_cases Hm; destruct Hm as [(_ & Ho & _ & ->) | (x & _ & Ho & _)]; [ | discriminate].
    right; eexists; split; [exact Ho | named_tac].
  - cmd_cases Hm; destruct Hm as [(_ & Ho & _ & _) | ([] & _ & _ & ->)]; [discriminate | ].
    destruct local_space;
      cmd_cases H; destruct H as [(_ & -> & _ & ->) | ([] & _ & -> & ->)];
      ((left; split; reflexivity) || (right; eexists; split; [reflexivity | named_tac])).
  - run_ret Hm.
  - run_ret Hm.
    destruct local_space;
      cmd_cases H; destruct H as [(_ & -> & _ & ->) | ([] & _ & -> & ->)];
      ((left; split; reflexivity) || (right; eexists; split; [reflexivity | named_tac])).
Qed.

Lemma configure_events_named (object_to_pin pin : string) (u v : Q)
    (local_space normalize : bool) :
  Forall (named ["setAttr"; "connectAttr"])
    (configure_events object_to_pin pin u v local_space normalize).
Proof.
  unfold configure_events. destruct normalize, local_space; cbn [app]; named_tac.
Qed.

(** ** Events *)

Lemma Call_eq_dec (c c' : Call) : {c = c'} + {c <> c'}.
Proof.
  pose proof string_dec. pose proof Z.eq_dec. pose proof bool_dec.
  pose proof Pos.eq_dec.
  assert (forall q q' : Q, {q = q'} + {q <> q'}) by decide equality.
  assert (forall l l' : list Z, {l = l'} + {l <> l'}) by (apply list_eq_dec; assumption).
  decide equality.
Qed.

Lemma Done_inj (c : Call) (a a' : answer c) : Done c a = Done c a' -> a = a'.
Proof.
  intros H. injection H as H. apply inj_pair2_eq_dec in H; [exact H | exact Call_eq_dec].
Qed.

Lemma in_named (l : list string) (t : list Event) (e : Event) :
  Forall (named l) t -> In e t -> In (name_of (call_of e)) l.
Proof.
  intros N H. rewrite Forall_forall in N. exact (N e H).
Qed.

(** An event cannot sit in a record that holds no command of its name. *)
Ltac misplaced H :=
  exfalso;
  match type of H with
  | In _ ?t =>
      match goal with
      | N : Forall (named _) t |- _ =>
          let K := fresh in
          pose proof (in_named _ _ _ N H) as K; cbn in K;
          repeat (destruct K as [K | K]; try discriminate K); contradiction
      end
  end.

(** ** The commands of each step *)

Lemma locate_named (surface : string) (s s' : Scene)
    (o : Outcome (string * option string * (string * string * string)))
    (t : list Event) :
  locate host surface s = (o, s', t) ->
  Forall (named ["listRelatives"; "getAttr"; "objectType"]) t.
Proof.
  intros H. apply locate_inv in H. destruct o as [[[p existing] attrs] | e].
  - destruct H as (r & first & rest & found & ty & s1 & s2 & s3 & t1 & t2 &
                   _ & _ & H1 & _ & H2 & _ & _ & ->).
    apply next_shape_named in H1, H2. named_tac.
  - destruct H as [(r & s1 & _ & _ & _ & ->) | [(p & ty & pre & -> & N & _) | (c & _ & N)]];
      named_tac.
Qed.

Lemma reference_shape_named (surface p ai aw : string) (existing : option string)
    (s s' : Scene) (o : Outcome string) (t : list Event) :
  reference_shape host surface p ai aw existing s = (o, s', t) ->
  Forall (named ["duplicate"; "listRelatives"; "parent"; "delete"; "rename";
                 "listConnections"; "connectAttr"; "setAttr"]) t.
Proof.
  intros H. apply reference_shape_inv in H. destruct o as [origin | e].
  - destruct H as [(_ & ->) | (_ & copies & dup & sl & tmp & conn & _ & _ & _ & ->)];
      [constructor | apply synthesis_events_named].
  - tauto.
Qed.

Lemma create_pin_named (object_to_pin p origin aw ao : string)
    (s s' : Scene) (o : Outcome string) (t : list Event) :
  create_pin host object_to_pin p origin aw ao s = (o, s', t) ->
  Forall (named ["createNode"; "connectAttr"; "xform"]) t.
Proof.
  intros H. apply create_pin_inv in H.
  destruct H as [(pin & _ & ->) | [(_ & ->) | (pin & [(_ & ->) | [(_ & ->) | (_ & ->)]])]];
    try apply pin_events_named; [ | constructor].
  apply (pin_events_named _ _ _ _ _ _ 4).
Qed.

Lemma axis_step_named (pin attr : string) (default : Z) (axis : option string)
    (s s' : Scene) (o : Outcome unit) (t : list Event) :
  axis_step host pin attr default axis s = (o, s', t) ->
  Forall (named ["setAttr"]) t.
Proof.
  intros H. apply axis_step_inv in H. destruct (axis_choice default axis).
  - destruct H as [(_ & ->) | (_ & ->)]; named_tac.
  - destruct H as (a & _ & _ & -> & _). constructor.
Qed.

Lemma configure_named (object_to_pin pin : string) (u v : Q) (local_space normalize : bool)
    (s s' : Scene) (o : Outcome unit) (t : list Event) :
  configure host object_to_pin pin u v local_space normalize s = (o, s', t) ->
  Forall (named ["setAttr"; "connectAttr"]) t.
Proof.
  intros H. apply configure_inv in H. destruct H as [(_ & ->) | (c & _ & N)].
  - apply configure_events_named.
  - exact N.
Qed.

(** Collect what is known of the commands of every step of the run at hand. *)
Ltac step_names :=
  repeat match goal with
         | H : locate _ _ _ = _ |- _ =>
             lazymatch goal with
             | _ : Forall (named ["listRelatives"; "getAttr"; "objectType"]) _ |- _ => fail
             | _ => pose proof (locate_named _ _ _ _ _ H)
             end
         end;
  repeat match goal with
         | H : reference_shape _ _ _ _ _ _ _ = (_, _, ?t) |- _ =>
             lazymatch goal with
             | _ : Forall (named ("duplicate" :: _)) t |- _ => fail
             | _ => pose proof (reference_shape_named _ _ _ _ _ _ _ _ _ H)
             end
         end;
  repeat match goal with
         | H : create_pin _ _ _ _ _ _ _ = (_, _, ?t) |- _ =>
             lazymatch goal with
             | _ : Forall (named ("createNode" :: _)) t |- _ => fail
             | _ => pose proof (create_pin_named _ _ _ _ _ _ _ _ _ H)
             end
         end;
  repeat match goal with
         | H : axis_step _ _ _ _ _ _ = (_, _, ?t) |- _ =>
             lazymatch goal with
             | _ : Forall (named ["setAttr"]) t |- _ => fail
             | _ => pose proof (axis_step_named _ _ _ _ _ _ _ _ H)
             end
         end;
  repeat match goal with
         | H : configure _ _ _ _ _ _ _ _ = (_, _, ?t) |- _ =>
             lazymatch goal with
             | _ : Forall (named ["setAttr"; "connectAttr"]) t |- _ => fail
             | _ => pose proof (configure_named _ _ _ _ _ _ _ _ _ _ H)
             end
         end.

(** Find the step whose record holds the event of [H]. *)
Ltac in_step H :=
  repeat (apply in_app_or in H; destruct H as [H | H]).

(** Two events that are equal have the same command and the same answer. *)
Ltac event_eq H :=
  let K := fresh "K" in
  pose proof (f_equal call_of H) as K; cbn [call_of] in K;
  first [ discriminate K
        | injection K; clear K; intros; subst
        | clear K ];
  first [ apply Done_inj in H;
          first [ discriminate H | injection H; clear H; intros; subst | subst ]
        | clear H ].

(** Go through a record for the event of [H]. *)
Ltac hunt H :=
  cbn [In firstn app reroute_events] in H;
  lazymatch type of H with
  | _ \/ _ => destruct H as [H | H]; [hunt H | hunt H]
  | False => contradiction
  | Done _ _ = Done _ _ => event_eq H
  | In _ (_ ++ _) => apply in_app_or in H; destruct H as [H | H]; [hunt H | hunt H]
  | In _ _ => try (misplaced H)
  | _ => idtac
  end.

(** Go through the events of an explicit record. *)
Ltac pick H :=
  cbn [In firstn app reroute_events] in H;
  repeat match type of H with
         | _ \/ _ => destruct H as [H | H]
         | False => contradiction
         | Done _ _ = Done _ _ => event_eq H
         end.

Ltac in_tac :=
  lazymatch goal with
  | |- In _ (_ ++ _) => apply in_or_app; first [left; in_tac | right; in_tac]
  | |- In _ (_ :: _) => first [left; reflexivity | right; in_tac]
  | |- In _ _ => assumption
  end.

(** ** The steps of a run *)

Lemma steps_run
    (object_to_pin surface : string) (u v : Q) (local_space normalize : bool)
    (normal_axis tangent_axis : option string) (reset_transforms : bool)
    (s s' : Scene) (o : Outcome string) (tr : list Event) :
  make_uv_pin host object_to_pin surface u v local_space normalize
    normal_axis tangent_axis reset_transforms s = (o, s', tr) ->
  Run host object_to_pin surface u v local_space normalize
    normal_axis tangent_axis s o s' tr.
Proof.
  rewrite make_uv_pin_steps. unfold steps. intros H.
  run_bind H; [now apply Run_locate | ].
  destruct a as [[p existing] [[ai aw] ao]].
  run_bind H; [eapply Run_reference; eauto | ].
  run_bind H; [eapply Run_create; eauto | ].
  run_bind H; [eapply Run_normal; eauto | ]. destruct a1.
  run_bind H; [eapply Run_tangent; eauto | ]. destruct a1.
  run_bind H; [eapply Run_configure; eauto | ]. destruct a1.
  run_ret H. rewrite app_nil_r. eapply Run_return; eauto.
Qed.

(** ** Runs that return *)

Lemma axis_step_returned (pin attr : string) (default : Z) (axis : option string)
    (s s' : Scene) (t : list Event) :
  axis_step host pin attr default axis s = (Returned tt, s', t) ->
  exists k, axis_choice default axis = Some k /\
            t = [Done (setAttr (pin ++ attr) k) tt].
Proof.
  intros H. apply axis_step_inv in H. destruct (axis_choice default axis) as [k | ].
  - destruct H as [(_ & ->) | (Ho & _)]; [eauto | discriminate Ho].
  - destruct H as (a & _ & Ho & _). discriminate Ho.
Qed.

Lemma configure_returned (object_to_pin pin : string) (u v : Q)
    (local_space normalize : bool) (s s' : Scene) (t : list Event) :
  configure host object_to_pin pin u v local_space normalize s = (Returned tt, s', t) ->
  t = configure_events object_to_pin pin u v local_space normalize.
Proof.
  intros H. apply configure_inv in H. destruct H as [(_ & ->) | (c & Ho & _)];
    [reflexivity | discriminate Ho].
Qed.

(** The whole record of a run that returns. *)
Lemma run_returned
    (object_to_pin surface : string) (u v : Q) (local_space normalize : bool)
    (normal_axis tangent_axis : option string) (reset_transforms : bool)
    (s s' : Scene) (pin : string) (tr : list Event) :
  make_uv_pin host object_to_pin surface u v local_space normalize
    normal_axis tangent_axis reset_transforms s = (Returned pin, s', tr) ->
  exists p existing ai aw ao origin sA tA sB tB normal tangent,
    locate host surface s = (Returned (p, existing, (ai, aw, ao)), sA, tA) /\
    reference_shape host surface p ai aw existing sA = (Returned origin, sB, tB) /\
    axis_choice 1 normal_axis = Some normal /\
    axis_choice 0 tangent_axis = Some tangent /\
    tr = tA ++ tB ++
         wiring_events object_to_pin p origin aw ao pin normal tangent
           u v local_space normalize.
Proof.
  intros H. apply steps_run in H.
  inversion H as [ | | | | | | p existing ai aw ao sA tA origin sB tB pin' sC tC sN tN
                               sT tT s1 t HA HB HC HN HT HE ]; subst.
  apply create_pin_returned in HC as ->.
  apply axis_step_returned in HN as (normal & Hn & ->).
  apply axis_step_returned in HT as (tangent & Ht & ->).
  apply configure_returned in HE as ->.
  exists p, existing, ai, aw, ao, origin, sA, tA, sB, tB, normal, tangent.
  repeat split; auto.
Qed.

(** ** Attribute names *)

Lemma list_ascii_append (x y : string) :
  list_ascii_of_string (x ++ y) = list_ascii_of_string x ++ list_ascii_of_string y.
Proof.
  induction x as [ | c x IH]; [reflexivity | ]. cbn. now rewrite IH.
Qed.

Lemma list_ascii_length (x : string) :
  List.length (list_ascii_of_string x) = String.length x.
Proof.
  induction x as [ | c x IH]; [reflexivity | ]. cbn. now rewrite IH.
Qed.

Lemma ending_append (n : nat) (x y : string) :
  n <= String.length y -> ending n (x ++ y) = ending n y.
Proof.
  intros Hn. unfold ending.
  rewrite list_ascii_append, rev_app_distr, firstn_app, length_rev, list_ascii_length.
  replace (n - String.length y) with 0 by lia. cbn [firstn]. apply app_nil_r.
Qed.

(** Two plugs whose attribute names end differently are different plugs. *)
Ltac suffix_clash :=
  match goal with
  | H : (_ ++ String _ _)%string = (_ ++ String _ _)%string |- _ =>
      apply (f_equal (ending 6)) in H;
      rewrite !ending_append in H by (cbn; lia);
      cbv in H; discriminate H
  end.

(** ** Runs that raise *)

Lemma locate_no_shape (surface : string) (s s1 : Scene) (r : option (list string)) :
  host (listRelatives surface) s = Some (s1, r) -> or_empty r = [] ->
  locate host surface s
  = (Raised (SceneError ("No shape nodes found on surface: " ++ surface)), s1,
     [Done (listRelatives surface) r]).
Proof.
  intros Hh Hr. unfold locate. cbn. unfold cmd. rewrite Hh, Hr. reflexivity.
Qed.

Lemma unknown_axis_choice (default : Z) (axis : option string) :
  unknown_axis axis -> axis_choice default axis = None.
Proof.
  intros (a & -> & Ha & Hout). unfold axis_choice, if_str.
  destruct a as [ | c a]; [contradiction | ]. unfold axis_enum.
  repeat match goal with
         | |- context [(?x =? ?y)%string] =>
             destruct (String.eqb_spec x y) as [E | _];
             [exfalso; apply Hout; rewrite E; cbn; tauto | ]
         end.
  reflexivity.
Qed.

(** An ArgumentError comes from one of the two axis arguments, after the
    pin node has been created and connected. *)
Lemma run_argument_error
    (object_to_pin surface : string) (u v : Q) (local_space normalize : bool)
    (normal_axis tangent_axis : option string) (reset_transforms : bool)
    (s s' : Scene) (message : string) (tr : list Event) :
  make_uv_pin host object_to_pin surface u v local_space normalize
    normal_axis tangent_axis reset_transforms s
  = (Raised (ArgumentError message), s', tr) ->
  exists a p origin aw ao pin before after,
    ((normal_axis = Some a /\ axis_choice 1 normal_axis = None) \/
     (tangent_axis = Some a /\ axis_choice 0 tangent_axis = None)) /\
    message = axis_message a /\
    tr = before ++ pin_events object_to_pin p origin aw ao pin ++ after.
Proof.
  intros H. apply steps_run in H.
  inversion H as
    [ e s1 t HA
    | p existing ai aw ao sA tA e s1 t HA HB
    | p existing ai aw ao sA tA origin sB tB e s1 t HA HB HC
    | p existing ai aw ao sA tA origin sB tB pin sC tC e s1 t HA HB HC HN
    | p existing ai aw ao sA tA origin sB tB pin sC tC sN tN e s1 t HA HB HC HN HT
    | p existing ai aw ao sA tA origin sB tB pin sC tC sN tN sT tT e s1 t HA HB HC HN HT HE
    | ]; subst.
  - apply locate_inv in HA.
    destruct HA as [(r & s2 & _ & _ & E & _) | [(q & ty & pre & _ & _ & _ & E) | (c & E & _)]];
      discriminate E.
  - apply reference_shape_inv in HB. destruct HB as (_ & _ & [E | [E | (c & E)]]);
      discriminate E.
  - apply create_pin_inv in HC.
    destruct HC as [(x & E & _) | [(E & _) | (x & [(E & _) | [(E & _) | (E & _)]])]];
      discriminate E.
  - apply create_pin_returned in HC as ->. apply axis_step_inv in HN.
    destruct (axis_choice 1 normal_axis) as [k | ] eqn:Hk.
    + destruct HN as [(E & _) | (E & _)]; discriminate E.
    + destruct HN as (a & -> & E & -> & _). injection E as ->.
      exists a, p, origin, aw, ao, pin, (tA ++ tB), [].
      rewrite <- app_assoc. auto.
  - apply create_pin_returned in HC as ->. apply axis_step_inv in HT.
    destruct (axis_choice 0 tangent_axis) as [k | ] eqn:Hk.
    + destruct HT as [(E & _) | (E & _)]; discriminate E.
    + destruct HT as (a & -> & E & -> & _). injection E as ->.
      exists a, p, origin, aw, ao, pin, (tA ++ tB), (tN ++ []).
      rewrite <- app_assoc. auto.
  - apply configure_inv in HE. destruct HE as [(E & _) | (c & E & _)]; discriminate E.
Qed.

(** ** Rerouting the upstream connection *)

Lemma reference_shape_reroute (surface p ai aw : string) (existing : option string)
    (s s' : Scene) (o : Outcome string) (t : list Event)
    (plug me up : string) (more : list string) :
  reference_shape host surface p ai aw existing s = (o, s', t) ->
  In (Done (listConnections plug) (Some (me :: up :: more))) t ->
  exists origin tmp before after,
    plug = (p ++ ai)%string /\
    t = before
        ++ [Done (rename tmp (p ++ "Orig")) origin;
            Done (listConnections plug) (Some (me :: up :: more))]
        ++ after /\
    ((exists rest,
         after = Done (connectAttr up (origin ++ ai) false) tt
                 :: Done (connectAttr (origin ++ aw) (p ++ ai) true) tt :: rest) \/
     (after = [] /\
      o = Raised (HostException (connectAttr up (origin ++ ai) false))) \/
     (after = [Done (connectAttr up (origin ++ ai) false) tt] /\
      o = Raised (HostException (connectAttr (origin ++ aw) (p ++ ai) true)))).
Proof.
  unfold reference_shape. destruct existing as [x | ]; intros H Hin.
  { run_ret H. contradiction. }
  unfold synthesize in H.
  run_cmd H; [hunt Hin | ].
  run_subscript H; [hunt Hin | ].
  run_cmd H; [hunt Hin | ].
  run_bind H; [destruct (truthy a0); [run_ret Hm | run_throw Hm; hunt Hin] | ].
  destruct (truthy a0); [run_ret Hm | run_throw Hm].
  run_subscript H; [hunt Hin | ].
  run_cmd H; [hunt Hin | ].
  run_cmd H; [hunt Hin | ].
  run_cmd H; [hunt Hin | ].
  run_cmd H; [hunt Hin | ].
  destruct a2 as [[ | me' [ | up' more']] | ]; cbn [truthy or_empty] in H.
  - run_bind H; run_ret Hm. run_cmd H; [hunt Hin | ]. run_cmd H; [hunt Hin | ].
    run_ret H. hunt Hin.
  - run_bind H; run_subscript Hm; try discriminate. hunt Hin.
  - run_bind H.
    + run_subscript Hm; [discriminate | ]. injection Hx1 as <-.
      cmd_cases Hm; destruct Hm as [(_ & Ho & _ & ->) | (y & _ & Ho & _)];
        [ | discriminate Ho].
      injection Ho as ->. hunt Hin.
      eexists _, _, [_; _; _; _], []. cbn [app]. split; [reflexivity | split; [reflexivity | eauto 6]].
    + run_subscript Hm. injection Hx1 as <-.
      cmd_cases Hm; destruct Hm as [(_ & Ho & _ & _) | ([] & _ & _ & ->)];
        [discriminate Ho | ].
      run_cmd H.
      { hunt Hin. eexists _, _, [_; _; _; _], [_]. cbn [app]. split; [reflexivity | split; [reflexivity | eauto 6]]. }
      run_cmd H.
      { hunt Hin. eexists _, _, [_; _; _; _], [_; _]. cbn [app]. split; [reflexivity | split; [reflexivity | eauto 6]]. }
      run_ret H. hunt Hin. eexists _, _, [_; _; _; _], [_; _; _]. cbn [app]. split; [reflexivity | split; [reflexivity | eauto 6]].
  - run_bind H; run_ret Hm. run_cmd H; [hunt Hin | ]. run_cmd H; [hunt Hin | ].
    run_ret H. hunt Hin.
Qed.

(** ** What the scans find in the scene *)

Lemma intermediate_functional (s : Scene) (x : string) (b b' : bool) :
  intermediate_is host s x b -> intermediate_is host s x b' -> b = b'.
Proof.
  intros (s1 & H1) (s2 & H2). rewrite H1 in H2. now injection H2.
Qed.

Lemma locate_sound (surface : string) (s sA : Scene)
    (p : string) (existing : option string) (attrs : string * string * string)
    (tA : list Event) :
  read_only_queries host ->
  locate host surface s = (Returned (p, existing, attrs), sA, tA) ->
  exists first rest,
    shape_children host s surface = first :: rest /\
    ((exists pre post,
         first :: rest = pre ++ p :: post /\
         (forall y, In y pre -> intermediate_is host s y true) /\
         intermediate_is host s p false) \/
     (p = first /\
      forall y, In y (first :: rest) -> intermediate_is host s y true)) /\
    match existing with
    | Some x =>
        exists pre post,
          first :: rest = pre ++ x :: post /\
          (forall y, In y pre -> intermediate_is host s y false) /\
          intermediate_is host s x true
    | None => forall y, In y (first :: rest) -> intermediate_is host s y false
    end.
Proof.
  intros RO H. apply locate_inv in H.
  destruct H as (r & first & rest & found & ty & s1 & s2 & s3 & t1 & t2 &
                 Hh & Hr & H1 & -> & H2 & _ & _ & _).
  assert (s1 = s) as -> by (eapply RO; [ | exact Hh]; reflexivity).
  apply (next_shape_sound _ _ RO) in H1 as (-> & H1).
  apply (next_shape_sound _ _ RO) in H2 as (_ & H2).
  exists first, rest. split; [unfold shape_children; now rewrite Hh | ].
  split; [ | exact H2].
  destruct found as [x | ]; [left; exact H1 | right; auto].
Qed.

(** ** Tools for the statements *)

(** The events of a run that returns, one step at a time. *)
Ltac returned_events H Hin :=
  apply run_returned in H;
  destruct H as (p & existing & ai & aw & ao & origin & sA & tA & sB & tB &
                 normal & tangent & HA & HB & Hn & Ht & ->);
  step_names;
  unfold wiring_events, pin_events, configure_events in Hin;
  in_step Hin;
  [ misplaced Hin
  | apply reference_shape_inv in HB;
    destruct HB as [(_ & ->) | (_ & copies & dup & sl & tmp & conn & _ & _ & Hconn & ->)];
    [ contradiction
    | unfold synthesis_events in Hin; in_step Hin;
      [ | destruct Hconn as [Hconn | (me & up & more & ->)];
          [ destruct conn as [[ | ? ?] | ]; try discriminate Hconn | ]
        | ] ]
  | .. ];
  pick Hin.

Lemma rejected_axis_unknown (default : Z) (a : string) :
  axis_choice default (Some a) = None -> ~ In a axis_symbols.
Proof.
  intros H Hin. cbn in Hin.
  repeat (destruct Hin as [<- | Hin]; [discriminate H | ]). contradiction.
Qed.

Lemma axis_table_choice (default : Z) (symbol : string) (k : Z) :
  In (symbol, k) axis_table -> axis_choice default (Some symbol) = Some k.
Proof.
  unfold axis_table. cbn [In]. intros H.
  repeat (destruct H as [H | H]; [injection H as <- <-; reflexivity | ]).
  contradiction.
Qed.

Lemma queries_only (t : list Event) :
  Forall (named ["listRelatives"; "getAttr"; "objectType"]) t ->
  Forall query_event t.
Proof.
  apply Forall_impl. exact named_query.
Qed.

Lemma named_apart (l l' : list string) (t : list Event) (e : Event) :
  Forall (named l) t -> In e t -> named l' e ->
  (forall x, In x l -> In x l' -> False) -> False.
Proof.
  intros N Hin Hname Hdis. exact (Hdis _ (in_named _ _ _ N Hin) Hname).
Qed.

Ltac apart :=
  let x := fresh "x" in
  let Hx := fresh "Hx" in
  let Hy := fresh "Hy" in
  intros x Hx Hy; cbn in Hx;
  repeat (destruct Hx as [Hx | Hx];
          [ subst x; cbn in Hy;
            repeat (destruct Hy as [Hy | Hy]; try discriminate Hy); contradiction
          | ]);
  contradiction.

Lemma wiring_events_named
    (object_to_pin p origin aw ao pin : string) (normal tangent : Z) (u v : Q)
    (local_space normalize : bool) :
  Forall (named ["createNode"; "connectAttr"; "xform"; "setAttr"])
    (wiring_events object_to_pin p origin aw ao pin normal tangent u v
       local_space normalize).
Proof.
  unfold wiring_events, pin_events.
  pose proof (configure_events_named object_to_pin pin u v local_space normalize).
  cbn [app]. named_tac.
Qed.

Lemma attrs_of_locate (surface p : string) (existing : option string)
    (ai aw ao : string) (s sA : Scene) (tA : list Event) :
  locate host surface s = (Returned (p, existing, (ai, aw, ao)), sA, tA) ->
  (ai, aw, ao) = (".inMesh", ".worldMesh[0]", ".outMesh")%string \/
  (ai, aw, ao) = (".create", ".worldSpace[0]", ".local")%string.
Proof.
  intros HA. apply locate_inv in HA.
  destruct HA as (r & first & rest & found & ty & s1 & s2 & s3 & t1 & t2 &
                  _ & _ & _ & _ & _ & _ & Hty & _).
  apply surface_attrs_inv in Hty. tauto.
Qed.

Lemma count_named_app (name : string) (t t' : list Event) :
  count_named name (t ++ t') = count_named name t + count_named name t'.
Proof.
  unfold count_named. now rewrite filter_app, length_app.
Qed.

Lemma count_named_none (name : string) (l : list string) (t : list Event) :
  Forall (named l) t -> ~ In name l -> count_named name t = 0.
Proof.
  intros N Hout. induction N as [ | e t He N IH]; [reflexivity | ].
  unfold count_named in *. cbn [filter].
  destruct (String.eqb_spec (name_of (call_of e)) name) as [E | _]; [ | exact IH].
  exfalso. apply Hout. rewrite <- E. exact He.
Qed.

Lemma count_named_synthesis (surface p ai aw : string) (copies : list string)
    (dup : string) (sl : option (list string)) (tmp origin : string)
    (conn : option (list string)) :
  count_named "duplicate"
    (synthesis_events surface p ai aw copies dup sl tmp origin conn) = 1 /\
  count_named "parent"
    (synthesis_events surface p ai aw copies dup sl tmp origin conn) = 1 /\
  count_named "rename"
    (synthesis_events surface p ai aw copies dup sl tmp origin conn) = 1.
Proof.
  unfold synthesis_events.
  destruct conn as [[ | me [ | up more]] | ]; repeat split; reflexivity.
Qed.

(** ** Statements *)

(** C1.  A run that creates the pin node then zeroes the pinned object's
    local translation and rotation, unless the host refuses one of the
    commands of that block; and [reset_transforms] changes nothing: with
    either value of the flag the run has the same outcome, the same final
    scene and the same record of commands. *)
Theorem reset_transforms_ignored
    (object_to_pin surface : string) (u v : Q) (local_space normalize : bool)
    (normal_axis tangent_axis : option string) (reset_transforms other : bool)
    (s s' : Scene) (o : Outcome string) (tr : list Event) :
  make_uv_pin host object_to_pin surface u v local_space normalize
    normal_axis tangent_axis reset_transforms s = (o, s', tr) ->
  make_uv_pin host object_to_pin surface u v local_space normalize
    normal_axis tangent_axis other s = (o, s', tr) /\
  forall pin,
    In (Done (createNode "uvPin" (object_to_pin ++ "_uvPin")) pin) tr ->
    In (Done (xform object_to_pin [0; 0; 0]%Z [0; 0; 0]%Z) tt) tr \/
    (exists source,
        o = Raised (HostException
                      (connectAttr source (pin ++ ".deformedGeometry") false)) \/
        o = Raised (HostException
                      (connectAttr source (pin ++ ".originalGeometry") false))) \/
    o = Raised (HostException (xform object_to_pin [0; 0; 0]%Z [0; 0; 0]%Z)).
Proof.
  intros H. split; [exact H | ]. intros pin Hin.
  apply steps_run in H.
  destruct H as
    [ e s1 t HA
    | p existing ai aw ao sA tA e s1 t HA HB
    | p existing ai aw ao sA tA origin sB tB e s1 t HA HB HC
    | p existing ai aw ao sA tA origin sB tB pin' sC tC e s1 t HA HB HC HN
    | p existing ai aw ao sA tA origin sB tB pin' sC tC sN tN e s1 t HA HB HC HN HT
    | p existing ai aw ao sA tA origin sB tB pin' sC tC sN tN sT tT e s1 t HA HB HC HN HT HE
    | p existing ai aw ao sA tA origin sB tB pin' sC tC sN tN sT tT s1 t HA HB HC HN HT HE ];
    step_names; in_step Hin; try (misplaced Hin).
  1: { apply create_pin_inv in HC.
       destruct HC
         as [(x & Ho & _) | [(_ & ->) | (x & [(Ho & ->) | [(Ho & ->) | (Ho & ->)]])]];
         [discriminate Ho | contradiction | | | ];
         unfold pin_events in Hin; pick Hin; rewrite Ho; eauto. }
  all: apply create_pin_returned in HC as ->; left; unfold pin_events; in_tac.
Qed.

(** C2, amended.  When [normal_axis] or [tangent_axis] is a non-empty
    symbol outside x, y, z, -x, -y, -z: the run never returns; once it has
    created the uvPin node it ends in the argument error that names the
    symbol, unless the host refuses a command; and whenever the argument
    error is raised, the uvPin node has been created and its
    deformedGeometry and originalGeometry inputs connected before. *)
Theorem unknown_axis_raises_after_pin
    (object_to_pin surface : string) (u v : Q) (local_space normalize : bool)
    (normal_axis tangent_axis : option string) (reset_transforms : bool)
    (s s' : Scene) (o : Outcome string) (tr : list Event) :
  unknown_axis normal_axis \/ unknown_axis tangent_axis ->
  make_uv_pin host object_to_pin surface u v local_space normalize
    normal_axis tangent_axis reset_transforms s = (o, s', tr) ->
  (forall pin, o <> Returned pin) /\
  (forall pin,
      In (Done (createNode "uvPin" (object_to_pin ++ "_uvPin")) pin) tr ->
      (exists a, (normal_axis = Some a \/ tangent_axis = Some a) /\
                 ~ In a axis_symbols /\
                 o = Raised (ArgumentError (axis_message a))) \/
      (exists c, o = Raised (HostException c))) /\
  (forall message,
      o = Raised (ArgumentError message) ->
      exists p origin aw ao pin before after,
        tr = before ++ pin_events object_to_pin p origin aw ao pin ++ after).
Proof.
  intros Hbad H.
  assert (axis_choice 1 normal_axis = None \/ axis_choice 0 tangent_axis = None) as Hnone.
  { destruct Hbad as [B | B]; [left | right]; now apply unknown_axis_choice. }
  assert (forall pin, o <> Returned pin) as Hnever.
  { intros pin ->. apply run_returned in H.
    destruct H as (p & existing & ai & aw & ao & origin & sA & tA & sB & tB &
                   normal & tangent & _ & _ & Hn & Ht & _).
    destruct Hnone as [E | E]; congruence. }
  split; [exact Hnever | ]. split.
  - intros pin Hin. apply steps_run in H.
    destruct H as
      [ e s1 t HA
      | p existing ai aw ao sA tA e s1 t HA HB
      | p existing ai aw ao sA tA origin sB tB e s1 t HA HB HC
      | p existing ai aw ao sA tA origin sB tB pin' sC tC e s1 t HA HB HC HN
      | p existing ai aw ao sA tA origin sB tB pin' sC tC sN tN e s1 t HA HB HC HN HT
      | p existing ai aw ao sA tA origin sB tB pin' sC tC sN tN sT tT e s1 t HA HB HC HN HT HE
      | p existing ai aw ao sA tA origin sB tB pin' sC tC sN tN sT tT s1 t HA HB HC HN HT HE ].
    + step_names. misplaced Hin.
    + step_names. in_step Hin; misplaced Hin.
    + right. apply create_pin_inv in HC.
      destruct HC as [(x & E & _) | [(E & _) | (x & [(E & _) | [(E & _) | (E & _)]])]];
        try discriminate E; injection E as ->; eauto.
    + apply axis_step_inv in HN. destruct (axis_choice 1 normal_axis) eqn:Hk.
      * right. destruct HN as [(E & _) | (E & _)]; [discriminate E | injection E as ->; eauto].
      * left. destruct HN as (a & -> & E & _). injection E as ->. exists a.
        pose proof (rejected_axis_unknown _ _ Hk). auto.
    + apply axis_step_inv in HT. destruct (axis_choice 0 tangent_axis) eqn:Hk.
      * right. destruct HT as [(E & _) | (E & _)]; [discriminate E | injection E as ->; eauto].
      * left. destruct HT as (a & -> & E & _). injection E as ->. exists a.
        pose proof (rejected_axis_unknown _ _ Hk). auto.
    + right. apply configure_inv in HE.
      destruct HE as [(E & _) | (c & E & _)]; [discriminate E | injection E as ->; eauto].
    + exfalso. exact (Hnever pin' eq_refl).
  - intros message ->. apply run_argument_error in H.
    destruct H as (a & p & origin & aw & ao & pin & before & after & _ & _ & ->).
    eauto 10.
Qed.

(** C3.  In a run that returns: called with [local_space=True], the pin's
    relativeSpaceMode is set to 1 and no inheritsTransform attribute is
    written; called with [local_space=False], or without [local_space], the
    pinned object's inheritsTransform is set to 0 and no relativeSpaceMode
    attribute is written. *)
Theorem space_mode_exclusive
    (object_to_pin surface : string) (k : Keywords)
    (s s' : Scene) (pin : string) (tr : list Event) :
  make_uv_pin_kw host object_to_pin surface k s = (Returned pin, s', tr) ->
  match kw_local_space k with
  | Some true =>
      In (Done (setAttr (pin ++ ".relativeSpaceMode") 1) tt) tr /\
      forall node value,
        ~ In (Done (setAttr (node ++ ".inheritsTransform") value) tt) tr
  | Some false | None =>
      In (Done (setAttr (object_to_pin ++ ".inheritsTransform") 0) tt) tr /\
      forall node value,
        ~ In (Done (setAttr (node ++ ".relativeSpaceMode") value) tt) tr
  end.
Proof.
  unfold make_uv_pin_kw. intros H.
  assert (forall node value,
             ~ In (Done (setAttr (node ++ (if or_default (kw_local_space k) false
                                           then ".inheritsTransform"
                                           else ".relativeSpaceMode")) value) tt) tr)
    as Hnot.
  { intros node value Hin.
    destruct (or_default (kw_local_space k) false), (or_default (kw_normalize k) false);
      returned_events H Hin; suffix_clash. }
  apply run_returned in H.
  destruct H as (p & existing & ai & aw & ao & origin & sA & tA & sB & tB &
                 normal & tangent & _ & _ & _ & _ & ->).
  unfold wiring_events, pin_events, configure_events in *.
  destruct (kw_local_space k) as [[ | ] | ]; cbn [or_default] in *;
    (split; [in_tac | exact Hnot]).
Qed.

(** C4.  When the host lists no shape under the surface, and when the type
    it reports for the primary shape is neither mesh nor nurbsSurface, the
    run stops in the host's fatal error, with its message, and the record
    holds queries only: no node was created, nothing in the scene was
    changed. *)
Theorem scene_errors_change_nothing
    (object_to_pin surface : string) (u v : Q) (local_space normalize : bool)
    (normal_axis tangent_axis : option string) (reset_transforms : bool)
    (s s' : Scene) (o : Outcome string) (tr : list Event) :
  make_uv_pin host object_to_pin surface u v local_space normalize
    normal_axis tangent_axis reset_transforms s = (o, s', tr) ->
  (forall s1 r,
      host (listRelatives surface) s = Some (s1, r) -> or_empty r = [] ->
      o = Raised (SceneError ("No shape nodes found on surface: " ++ surface)) /\
      Forall query_event tr) /\
  (forall p ty,
      In (Done (objectType p) ty) tr ->
      ty <> "mesh"%string -> ty <> "nurbsSurface"%string ->
      o = Raised (SceneError ("Unsupported surface type: " ++ ty)) /\
      Forall query_event tr).
Proof.
  intros H. apply steps_run in H. split.
  - intros s1 r Hh Hr. pose proof (locate_no_shape surface s s1 r Hh Hr) as L.
    destruct H as [ ? ? ? HA | ? ? ? ? ? ? ? ? ? ? HA | ? ? ? ? ? ? ? ? ? ? ? ? ? HA
                  | ? ? ? ? ? ? ? ? ? ? ? ? ? ? ? ? HA | ? ? ? ? ? ? ? ? ? ? ? ? ? ? ? ? ? ? HA
                  | ? ? ? ? ? ? ? ? ? ? ? ? ? ? ? ? ? ? ? ? HA
                  | ? ? ? ? ? ? ? ? ? ? ? ? ? ? ? ? ? ? ? HA ];
      rewrite L in HA; try discriminate HA.
    injection HA as <- <- <-. split; [reflexivity | ].
    repeat constructor.
  - intros q ty Hin Hmesh Hnurbs.
    assert (forall attrs, surface_attrs ty <> Some attrs) as Hty.
    { intros attrs E. apply surface_attrs_inv in E. tauto. }
    destruct H as
      [ e s1 t HA
      | p existing ai aw ao sA tA e s1 t HA HB
      | p existing ai aw ao sA tA origin sB tB e s1 t HA HB HC
      | p existing ai aw ao sA tA origin sB tB pin sC tC e s1 t HA HB HC HN
      | p existing ai aw ao sA tA origin sB tB pin sC tC sN tN e s1 t HA HB HC HN HT
      | p existing ai aw ao sA tA origin sB tB pin sC tC sN tN sT tT e s1 t HA HB HC HN HT HE
      | p existing ai aw ao sA tA origin sB tB pin sC tC sN tN sT tT s1 t HA HB HC HN HT HE ].
    1: { pose proof (locate_named _ _ _ _ _ HA) as N. apply queries_only in N.
         apply locate_inv in HA.
         destruct HA as [(r & s2 & _ & _ & _ & ->)
                        | [(p & ty' & pre & -> & Npre & _ & ->) | (c & _ & Nt)]];
           hunt Hin. auto. }
    all: exfalso; step_names; apply locate_inv in HA;
      destruct HA as (r & first & rest & found & ty' & s2 & s3 & s4 & t1 & t2 &
                      _ & _ & Hs1 & _ & Hs2 & _ & Hattrs & ->);
      apply next_shape_named in Hs1, Hs2; hunt Hin; exact (Hty _ Hattrs).
Qed.

(** C5.  On a host whose queries leave the scene alone, in a run that
    returns: when no shape child of the surface is flagged intermediate,
    the run queries the scene, then synthesizes the reference shape once
    (it duplicates the active shape, moves the copy's shape under the
    surface, renames it to the active shape's name followed by Orig,
    connects its world output into the active shape's input and flags it
    intermediate), then wires the pin, and these are all its commands: one
    duplicate, one parent, one rename; when some shape child is flagged
    intermediate, the run duplicates, re-parents, deletes and renames
    nothing, and sets no intermediateObject flag. *)
Theorem reference_shape_created_once
    (object_to_pin surface : string) (u v : Q) (local_space normalize : bool)
    (normal_axis tangent_axis : option string) (reset_transforms : bool)
    (s s' : Scene) (pin : string) (tr : list Event) :
  read_only_queries host ->
  make_uv_pin host object_to_pin surface u v local_space normalize
    normal_axis tangent_axis reset_transforms s = (Returned pin, s', tr) ->
  ((forall x, In x (shape_children host s surface) -> intermediate_is host s x false) ->
   exists active rest ai aw ao copies dup sl tmp origin conn normal tangent before,
     shape_children host s surface = active :: rest /\
     ((ai, aw, ao) = (".inMesh", ".worldMesh[0]", ".outMesh")%string \/
      (ai, aw, ao) = (".create", ".worldSpace[0]", ".local")%string) /\
     Forall query_event before /\
     nth_error copies 0 = Some dup /\
     nth_error (or_empty sl) 0 = Some tmp /\
     tr = before
          ++ synthesis_events surface active ai aw copies dup sl tmp origin conn
          ++ wiring_events object_to_pin active origin aw ao pin normal tangent
               u v local_space normalize /\
     count_named "duplicate" tr = 1 /\
     count_named "parent" tr = 1 /\
     count_named "rename" tr = 1) /\
  ((exists x, In x (shape_children host s surface) /\ intermediate_is host s x true) ->
   (forall e, In e tr -> ~ named ["duplicate"; "parent"; "delete"; "rename"] e) /\
   (forall node value,
       ~ In (Done (setAttr (node ++ ".intermediateObject") value) tt) tr)).
Proof.
  intros RO H. split.
  - intros Hnone. apply run_returned in H.
    destruct H as (p & existing & ai & aw & ao & origin & sA & tA & sB & tB &
                   normal & tangent & HA & HB & _ & _ & ->).
    pose proof (attrs_of_locate _ _ _ _ _ _ _ _ _ HA) as Hattrs.
    pose proof (locate_named _ _ _ _ _ HA) as NA.
    destruct (locate_sound _ _ _ _ _ _ _ RO HA) as (first & rest & Hc & Hp & He).
    rewrite Hc in Hnone.
    assert (p = first) as ->.
    { destruct Hp as [([ | y pre] & post & E & Hpre & _) | (E & _)]; [ | | exact E].
      - now injection E as <- _.
      - injection E as <- _.
        discriminate (intermediate_functional _ _ _ _ (Hpre first (or_introl eq_refl))
                        (Hnone first (or_introl eq_refl))). }
    assert (existing = None) as ->.
    { destruct existing as [x | ]; [ | reflexivity].
      destruct He as (pre & post & E & _ & Hx).
      assert (In x (first :: rest)) as I by (rewrite E; apply in_elt).
      discriminate (intermediate_functional _ _ _ _ Hx (Hnone x I)). }
    apply reference_shape_inv in HB.
    destruct HB as [(E & _) | (_ & copies & dup & sl & tmp & conn & Hdup & Htmp & _ & ->)];
      [discriminate E | ].
    exists first, rest, ai, aw, ao, copies, dup, sl, tmp, origin, conn, normal, tangent, tA.
    pose proof (wiring_events_named object_to_pin first origin aw ao pin
                  normal tangent u v local_space normalize) as NW.
    pose proof (count_named_synthesis surface first ai aw copies dup sl tmp origin conn)
      as (C1 & C2 & C3).
    repeat (split; [solve [auto using queries_only] | ]).
    rewrite !count_named_app, C1, C2, C3.
    rewrite !(count_named_none _ _ _ NA), !(count_named_none _ _ _ NW);
      try (cbn; intros K; repeat (destruct K as [K | K]; try discriminate K); contradiction).
    auto.
  - intros (x & Hx & Hflag). apply run_returned in H.
    destruct H as (p & existing & ai & aw & ao & origin & sA & tA & sB & tB &
                   normal & tangent & HA & HB & _ & _ & ->).
    pose proof (locate_named _ _ _ _ _ HA) as NA.
    destruct (locate_sound _ _ _ _ _ _ _ RO HA) as (first & rest & Hc & _ & He).
    rewrite Hc in Hx.
    destruct existing as [y | ].
    2: discriminate (intermediate_functional _ _ _ _ Hflag (He x Hx)).
    apply reference_shape_inv in HB.
    destruct HB as [(_ & ->) | (E & _)]; [ | discriminate E].
    pose proof (wiring_events_named object_to_pin p origin aw ao pin
                  normal tangent u v local_space normalize) as NW.
    cbn [app]. split.
    + intros e Hin Hname. apply in_app_or in Hin. destruct Hin as [Hin | Hin].
      * apply (named_apart _ _ _ _ NA Hin Hname). apart.
      * apply (named_apart _ _ _ _ NW Hin Hname). apart.
    + intros node value Hin. apply in_app_or in Hin. destruct Hin as [Hin | Hin].
      * misplaced Hin.
      * unfold wiring_events, pin_events, configure_events in Hin.
        destruct normalize, local_space; hunt Hin; suffix_clash.
Qed.

(** C6.  In a run that returns, the pin's normalAxis is set to the value
    the table x->0, y->1, z->2, -x->3, -y->4, -z->5 gives for [normal_axis],
    and to 1 when [normal_axis] is omitted; its tangentAxis is set likewise
    from [tangent_axis], and to 0 when that is omitted; and no normalAxis or
    tangentAxis attribute is written with any other value. *)
Theorem axis_enumerations
    (object_to_pin surface : string) (u v : Q) (local_space normalize : bool)
    (normal_axis tangent_axis : option string) (reset_transforms : bool)
    (s s' : Scene) (pin : string) (tr : list Event) :
  make_uv_pin host object_to_pin surface u v local_space normalize
    normal_axis tangent_axis reset_transforms s = (Returned pin, s', tr) ->
  (normal_axis = None -> In (Done (setAttr (pin ++ ".normalAxis") 1) tt) tr) /\
  (forall symbol k,
      normal_axis = Some symbol -> In (symbol, k) axis_table ->
      In (Done (setAttr (pin ++ ".normalAxis") k) tt) tr) /\
  (tangent_axis = None -> In (Done (setAttr (pin ++ ".tangentAxis") 0) tt) tr) /\
  (forall symbol k,
      tangent_axis = Some symbol -> In (symbol, k) axis_table ->
      In (Done (setAttr (pin ++ ".tangentAxis") k) tt) tr) /\
  (forall node value,
      In (Done (setAttr (node ++ ".normalAxis") value) tt) tr ->
      axis_choice 1 normal_axis = Some value) /\
  (forall node value,
      In (Done (setAttr (node ++ ".tangentAxis") value) tt) tr ->
      axis_choice 0 tangent_axis = Some value).
Proof.
  intros H.
  assert (forall node value,
             In (Done (setAttr (node ++ ".normalAxis") value) tt) tr ->
             axis_choice 1 normal_axis = Some value) as Hnormal.
  { intros node value Hin. destruct normalize, local_space;
      returned_events H Hin; try suffix_clash; assumption. }
  assert (forall node value,
             In (Done (setAttr (node ++ ".tangentAxis") value) tt) tr ->
             axis_choice 0 tangent_axis = Some value) as Htangent.
  { intros node value Hin. destruct normalize, local_space;
      returned_events H Hin; try suffix_clash; assumption. }
  apply run_returned in H.
  destruct H as (p & existing & ai & aw & ao & origin & sA & tA & sB & tB &
                 normal & tangent & _ & _ & Hn & Ht & ->).
  assert (In (Done (setAttr (pin ++ ".normalAxis") normal) tt)
             (tA ++ tB ++ wiring_events object_to_pin p origin aw ao pin normal tangent
                             u v local_space normalize)) as In_n
    by (unfold wiring_events, pin_events; in_tac).
  assert (In (Done (setAttr (pin ++ ".tangentAxis") tangent) tt)
             (tA ++ tB ++ wiring_events object_to_pin p origin aw ao pin normal tangent
                             u v local_space normalize)) as In_t
    by (unfold wiring_events, pin_events; in_tac).
  repeat split; auto.
  - intros ->. cbn in Hn. injection Hn as <-. exact In_n.
  - intros symbol k -> Hk. rewrite (axis_table_choice 1 symbol k Hk) in Hn.
    injection Hn as <-. exact In_n.
  - intros ->. cbn in Ht. injection Ht as <-. exact In_t.
  - intros symbol k -> Hk. rewrite (axis_table_choice 0 symbol k Hk) in Ht.
    injection Ht as <-. exact In_t.
Qed.

(** C7.  In a run that returns, the pin's coordinate[0] is set to the pair
    (u, v) of the call, (0, 0) when they are omitted, and no other float
    pair is written; the pin's outputMatrix[0] is connected to the pinned
    object's offsetParentMatrix; and the value returned is the name the
    host gave to the one node the run created, the uvPin node. *)
Theorem coordinate_matrix_and_result
    (object_to_pin surface : string) (k : Keywords)
    (s s' : Scene) (pin : string) (tr : list Event) :
  make_uv_pin_kw host object_to_pin surface k s = (Returned pin, s', tr) ->
  In (Done (setAttr_float2 (pin ++ ".coordinate[0]")
              (or_default (kw_u k) 0%Q) (or_default (kw_v k) 0%Q)) tt) tr /\
  (forall plug u v,
      In (Done (setAttr_float2 plug u v) tt) tr ->
      plug = (pin ++ ".coordinate[0]")%string /\
      u = or_default (kw_u k) 0%Q /\ v = or_default (kw_v k) 0%Q) /\
  In (Done (connectAttr (pin ++ ".outputMatrix[0]")
              (object_to_pin ++ ".offsetParentMatrix") false) tt) tr /\
  In (Done (createNode "uvPin" (object_to_pin ++ "_uvPin")) pin) tr /\
  (forall node_type name x,
      In (Done (createNode node_type name) x) tr ->
      node_type = "uvPin"%string /\ name = (object_to_pin ++ "_uvPin")%string /\
      x = pin).
Proof.
  unfold make_uv_pin_kw. intros H.
  assert (forall plug u v,
      In (Done (setAttr_float2 plug u v) tt) tr ->
      plug = (pin ++ ".coordinate[0]")%string /\
      u = or_default (kw_u k) 0%Q /\ v = or_default (kw_v k) 0%Q) as Hcoord.
  { intros plug u v Hin.
    destruct (or_default (kw_normalize k) false), (or_default (kw_local_space k) false);
      returned_events H Hin; auto. }
  assert (forall node_type name x,
      In (Done (createNode node_type name) x) tr ->
      node_type = "uvPin"%string /\ name = (object_to_pin ++ "_uvPin")%string /\
      x = pin) as Hnode.
  { intros node_type name x Hin.
    destruct (or_default (kw_normalize k) false), (or_default (kw_local_space k) false);
      returned_events H Hin; auto. }
  apply run_returned in H.
  destruct H as (p & existing & ai & aw & ao & origin & sA & tA & sB & tB &
                 normal & tangent & _ & _ & _ & _ & ->).
  unfold wiring_events, pin_events, configure_events.
  split; [in_tac | ]. split; [exact Hcoord | ].
  split; [in_tac | ]. split; [in_tac | exact Hnode].
Qed.

(** C8.  When the host reports a connection on the input of the active
    shape, the run has just renamed the new reference shape; it then
    connects the reported upstream plug into the reference shape's input,
    and next, with force, the reference shape's world output into the
    active shape's input.  Only a refusal of one of these two connections
    by the host cuts the sequence short. *)
Theorem upstream_rerouted
    (object_to_pin surface : string) (u v : Q) (local_space normalize : bool)
    (normal_axis tangent_axis : option string) (reset_transforms : bool)
    (s s' : Scene) (o : Outcome string) (tr : list Event)
    (plug me up : string) (more : list string) :
  make_uv_pin host object_to_pin surface u v local_space normalize
    normal_axis tangent_axis reset_transforms s = (o, s', tr) ->
  In (Done (listConnections plug) (Some (me :: up :: more))) tr ->
  exists active origin ai aw tmp before after,
    plug = (active ++ ai)%string /\
    ((ai, aw) = (".inMesh", ".worldMesh[0]")%string \/
     (ai, aw) = (".create", ".worldSpace[0]")%string) /\
    tr = before
         ++ [Done (rename tmp (active ++ "Orig")) origin;
             Done (listConnections plug) (Some (me :: up :: more))]
         ++ after /\
    ((exists rest,
         after = Done (connectAttr up (origin ++ ai) false) tt
                 :: Done (connectAttr (origin ++ aw) (active ++ ai) true) tt :: rest) \/
     (after = [] /\
      o = Raised (HostException (connectAttr up (origin ++ ai) false))) \/
     (after = [Done (connectAttr up (origin ++ ai) false) tt] /\
      o = Raised (HostException (connectAttr (origin ++ aw) (active ++ ai) true)))).
Proof.
  intros H Hin. apply steps_run in H.
  assert (forall p existing ai aw ao sA tA,
             locate host surface s = (Returned (p, existing, (ai, aw, ao)), sA, tA) ->
             (ai, aw) = (".inMesh", ".worldMesh[0]")%string \/
             (ai, aw) = (".create", ".worldSpace[0]")%string) as Hattrs.
  { intros p existing ai aw ao sA tA HA. apply locate_inv in HA.
    destruct HA as (r & first & rest & found & ty & s1 & s2 & s3 & t1 & t2 &
                    _ & _ & _ & _ & _ & _ & Hty & _).
    apply surface_attrs_inv in Hty as [(_ & E) | (_ & E)]; injection E as -> -> ->; auto. }
  destruct H as
    [ e s1 t HA
    | p existing ai aw ao sA tA e s1 t HA HB
    | p existing ai aw ao sA tA origin sB tB e s1 t HA HB HC
    | p existing ai aw ao sA tA origin sB tB pin sC tC e s1 t HA HB HC HN
    | p existing ai aw ao sA tA origin sB tB pin sC tC sN tN e s1 t HA HB HC HN HT
    | p existing ai aw ao sA tA origin sB tB pin sC tC sN tN sT tT e s1 t HA HB HC HN HT HE
    | p existing ai aw ao sA tA origin sB tB pin sC tC sN tN sT tT s1 t HA HB HC HN HT HE ];
    step_names.
  1: misplaced Hin.
  all: specialize (Hattrs _ _ _ _ _ _ _ HA);
    apply in_app_or in Hin; destruct Hin as [Hin | Hin]; [misplaced Hin | ].
  1: { destruct (reference_shape_reroute _ _ _ _ _ _ _ _ _ _ _ _ _ HB Hin)
         as (origin & tmp & before & after & -> & -> & Hafter).
       exists p, origin, ai, aw, tmp, (tA ++ before), after.
       rewrite <- !app_assoc. auto. }
  all: apply in_app_or in Hin; destruct Hin as [Hin | Hin]; [ | hunt Hin];
    destruct (reference_shape_reroute _ _ _ _ _ _ _ _ _ _ _ _ _ HB Hin)
      as (origin' & tmp & before & after & -> & -> & [(rest & ->) | [(_ & E) | (_ & E)]]);
    try discriminate E;
    eexists p, origin', ai, aw, tmp, (tA ++ before), _;
    (split; [reflexivity | ]); (split; [exact Hattrs | ]);
    (split; [rewrite <- !app_assoc; cbn [app]; reflexivity | left; eexists; reflexivity]).
Qed.

(** C9.  On a host whose queries leave the scene alone: when every shape
    child of the surface is flagged intermediate, a run that returns has
    only queried the scene and then wired the pin with the first shape
    child in both roles, active shape and reference shape: its world
    output feeds the pin's deformedGeometry, its local output the pin's
    originalGeometry, and nothing was duplicated. *)
Theorem all_intermediate_fallback
    (object_to_pin surface : string) (u v : Q) (local_space normalize : bool)
    (normal_axis tangent_axis : option string) (reset_transforms : bool)
    (s s' : Scene) (pin : string) (tr : list Event) :
  read_only_queries host ->
  make_uv_pin host object_to_pin surface u v local_space normalize
    normal_axis tangent_axis reset_transforms s = (Returned pin, s', tr) ->
  (forall x, In x (shape_children host s surface) -> intermediate_is host s x true) ->
  exists first rest ai aw ao normal tangent before,
    shape_children host s surface = first :: rest /\
    ((ai, aw, ao) = (".inMesh", ".worldMesh[0]", ".outMesh")%string \/
     (ai, aw, ao) = (".create", ".worldSpace[0]", ".local")%string) /\
    Forall query_event before /\
    tr = before ++ wiring_events object_to_pin first first aw ao pin normal tangent
                     u v local_space normalize /\
    In (Done (connectAttr (first ++ aw) (pin ++ ".deformedGeometry") false) tt) tr /\
    In (Done (connectAttr (first ++ ao) (pin ++ ".originalGeometry") false) tt) tr /\
    forall e, In e tr -> ~ named ["duplicate"; "parent"; "delete"; "rename"] e.
Proof.
  intros RO H Hall. apply run_returned in H.
  destruct H as (p & existing & ai & aw & ao & origin & sA & tA & sB & tB &
                 normal & tangent & HA & HB & _ & _ & ->).
  pose proof (attrs_of_locate _ _ _ _ _ _ _ _ _ HA) as Hattrs.
  pose proof (locate_named _ _ _ _ _ HA) as NA.
  destruct (locate_sound _ _ _ _ _ _ _ RO HA) as (first & rest & Hc & Hp & He).
  rewrite Hc in Hall.
  assert (p = first) as ->.
  { destruct Hp as [(pre & post & E & _ & Hf) | (E & _)]; [ | exact E].
    assert (In p (first :: rest)) as I by (rewrite E; apply in_elt).
    discriminate (intermediate_functional _ _ _ _ (Hall p I) Hf). }
  assert (existing = Some first) as ->.
  { destruct existing as [x | ].
    - destruct He as ([ | y pre] & post & E & Hpre & _).
      + injection E as <- _. reflexivity.
      + injection E as <- _.
        discriminate (intermediate_functional _ _ _ _ (Hall first (or_introl eq_refl))
                        (Hpre first (or_introl eq_refl))).
    - discriminate (intermediate_functional _ _ _ _ (Hall first (or_introl eq_refl))
                      (He first (or_introl eq_refl))). }
  apply reference_shape_inv in HB.
  destruct HB as [(E & ->) | (E & _)]; [injection E as <- | discriminate E].
  exists first, rest, ai, aw, ao, normal, tangent, tA. cbn [app].
  split; [exact Hc | ]. split; [exact Hattrs | ].
  split; [now apply queries_only | ]. split; [reflexivity | ].
  split; [unfold wiring_events, pin_events; in_tac | ].
  split; [unfold wiring_events, pin_events; in_tac | ].
  intros e Hin Hname. pose proof (wiring_events_named object_to_pin first first aw ao pin
                                    normal tangent u v local_space normalize) as NW.
  apply in_app_or in Hin. destruct Hin as [Hin | Hin].
  - apply (named_apart _ _ _ _ NA Hin Hname). apart.
  - apply (named_apart _ _ _ _ NW Hin Hname). apart.
Qed.

(** C10.  An empty string for [normal_axis] or [tangent_axis] runs exactly
    as the omitted argument does, so it raises no argument error of its
    own: an argument error raised with the one axis empty names the other
    axis, and a run that returns has set the default, normalAxis 1 or
    tangentAxis 0. *)
Theorem empty_axis_is_default
    (object_to_pin surface : string) (u v : Q) (local_space normalize : bool)
    (reset_transforms : bool) (s : Scene) :
  (forall tangent_axis,
      make_uv_pin host object_to_pin surface u v local_space normalize
        (Some "") tangent_axis reset_transforms s
      = make_uv_pin host object_to_pin surface u v local_space normalize
          None tangent_axis reset_transforms s) /\
  (forall normal_axis,
      make_uv_pin host object_to_pin surface u v local_space normalize
        normal_axis (Some "") reset_transforms s
      = make_uv_pin host object_to_pin surface u v local_space normalize
          normal_axis None reset_transforms s) /\
  (forall tangent_axis o s' tr,
      make_uv_pin host object_to_pin surface u v local_space normalize
        (Some "") tangent_axis reset_transforms s = (o, s', tr) ->
      (forall message, o = Raised (ArgumentError message) ->
         exists a, tangent_axis = Some a /\ a <> ""%string /\
                   message = axis_message a) /\
      (forall pin, o = Returned pin ->
         In (Done (setAttr (pin ++ ".normalAxis") 1) tt) tr)) /\
  (forall normal_axis o s' tr,
      make_uv_pin host object_to_pin surface u v local_space normalize
        normal_axis (Some "") reset_transforms s = (o, s', tr) ->
      (forall message, o = Raised (ArgumentError message) ->
         exists a, normal_axis = Some a /\ a <> ""%string /\
                   message = axis_message a) /\
      (forall pin, o = Returned pin ->
         In (Done (setAttr (pin ++ ".tangentAxis") 0) tt) tr)).
Proof.
  split; [reflexivity | ]. split; [reflexivity | ]. split.
  - intros tangent_axis o s' tr H. split.
    + intros message ->. apply run_argument_error in H.
      destruct H as (a & p & origin & aw & ao & pin & before & after &
                     [(E & C) | (E & C)] & -> & _).
      * discriminate C.
      * exists a. repeat split; [exact E | ]. intros ->. subst. discriminate C.
    + intros pin ->. apply run_returned in H.
      destruct H as (p & existing & ai & aw & ao & origin & sA & tA & sB & tB &
                     normal & tangent & _ & _ & Hn & _ & ->).
      injection Hn as <-. unfold wiring_events, pin_events. in_tac.
  - intros normal_axis o s' tr H. split.
    + intros message ->. apply run_argument_error in H.
      destruct H as (a & p & origin & aw & ao & pin & before & after &
                     [(E & C) | (E & C)] & -> & _).
      * exists a. repeat split; [exact E | ]. intros ->. subst. discriminate C.
      * discriminate C.
    + intros pin ->. apply run_returned in H.
      destruct H as (p & existing & ai & aw & ao & origin & sA & tA & sB & tB &
                     normal & tangent & _ & _ & _ & Ht & ->).
      injection Ht as <-. unfold wiring_events, pin_events. in_tac.
Qed.

(** ** Tools for the further statements *)

Lemma synthesize_cases (surface p ai aw : string)
    (s s' : Scene) (o : Outcome string) (t : list Event) :
  synthesize host surface p ai aw s = (o, s', t) ->
  (o = Raised (HostException (duplicate p)) /\ t = []) \/
  (exists copies,
      (copies = [] /\ o = Raised IndexError /\ t = [Done (duplicate p) copies]) \/
      (exists dup,
          nth_error copies 0 = Some dup /\
          ((o = Raised (HostException (listRelatives dup)) /\
            t = [Done (duplicate p) copies]) \/
           (exists sl,
               (truthy sl = false /\
                o = Raised (SceneError "Could not create intermediate shape.") /\
                t = [Done (duplicate p) copies; Done (listRelatives dup) sl]) \/
               (exists tmp,
                   nth_error (or_empty sl) 0 = Some tmp /\
                   ((o = Raised (HostException (parent tmp surface)) /\
                     t = [Done (duplicate p) copies; Done (listRelatives dup) sl]) \/
                    (o = Raised (HostException (delete dup)) /\
                     t = [Done (duplicate p) copies; Done (listRelatives dup) sl;
                          Done (parent tmp surface) tt]) \/
                    (exists rest,
                        t = [Done (duplicate p) copies; Done (listRelatives dup) sl;
                             Done (parent tmp surface) tt; Done (delete dup) tt]
                            ++ rest /\
                        Forall (named ["rename"; "listConnections"; "connectAttr";
                                       "setAttr"]) rest /\
                        match o with
                        | Returned _ => True
                        | Raised (HostException _) => True
                        | Raised IndexError =>
                            exists origin x,
                              rest = [Done (rename tmp (p ++ "Orig")) origin;
                                      Done (listConnections (p ++ ai)) (Some [x])]
                        | Raised _ => False
                        end))))))).
Proof.
  unfold synthesize. intros H.
  run_cmd H; [auto | ]. right. exists a.
  run_subscript H.
  { left. destruct a; [auto | discriminate Hx]. }
  right. exists x. split; [exact Hx | ].
  run_cmd H; [auto | ]. right. exists a0.
  run_bind H.
  { destruct (truthy a0) eqn:Ha0; [run_ret Hm | run_throw Hm]. auto. }
  destruct (truthy a0) eqn:Ha0; [run_ret Hm | run_throw Hm].
  right. run_subscript H.
  { destruct a0 as [[ | ? ?] | ]; discriminate. }
  exists x0. split; [exact Hx0 | ].
  run_cmd H; [auto | ]. run_cmd H; [auto | ].
  right. right.
  run_cmd H; [exists []; split; [reflexivity | split; [named_tac | exact I]] | ].
  run_cmd H; [eexists [_]; split; [reflexivity | split; [named_tac | exact I]] | ].
  exists (Done (rename x0 (p ++ "Orig")) a1
          :: Done (listConnections (p ++ ai)) a2 :: t0).
  split; [reflexivity | ].
  destruct a2 as [[ | me [ | up more]] | ]; cbn [truthy or_empty] in H.
  - run_bind H; run_ret Hm.
    run_cmd H; [split; [named_tac | exact I] | ].
    run_cmd H; [split; [named_tac | exact I] | ].
    run_ret H. split; [named_tac | exact I].
  - run_bind H; run_subscript Hm; try discriminate.
    split; [named_tac | eauto].
  - run_bind H.
    + run_subscript Hm; [discriminate | ].
      cmd_cases Hm; destruct Hm as [(_ & Ho & _ & ->) | (y & _ & Ho & _)];
        [ | discriminate Ho].
      injection Ho as ->. split; [named_tac | exact I].
    + run_subscript Hm.
      cmd_cases Hm; destruct Hm as [(_ & Ho & _ & _) | ([] & _ & _ & ->)];
        [discriminate Ho | ].
      run_cmd H; [split; [named_tac | exact I] | ].
      run_cmd H; [split; [named_tac | exact I] | ].
      run_ret H. split; [named_tac | exact I].
  - run_bind H; run_ret Hm.
    run_cmd H; [split; [named_tac | exact I] | ].
    run_cmd H; [split; [named_tac | exact I] | ].
    run_ret H. split; [named_tac | exact I].
Qed.

Lemma queries_come_first (tA rest : list Event) (e : Event) :
  forall before after,
  tA ++ rest = before ++ e :: after ->
  Forall query_event tA -> is_query (call_of e) = false ->
  exists mid, before = tA ++ mid.
Proof.
  induction tA as [ | x tA IH]; intros before after E N He.
  - exists before. reflexivity.
  - inversion N as [ | ? ? Hx N']; subst. destruct before as [ | y before].
    + cbn [app] in E. injection E as -> _. unfold query_event in Hx. congruence.
    + cbn [app] in E. injection E as <- E.
      destruct (IH before after E N' He) as (mid & ->). exists mid. reflexivity.
Qed.

Lemma reference_shape_delete (surface p ai aw : string) (existing : option string)
    (s s' : Scene) (o : Outcome string) (t : list Event) (n : string) :
  reference_shape host surface p ai aw existing s = (o, s', t) ->
  In (Done (delete n) tt) t ->
  exists copies, In (Done (duplicate p) copies) t /\ nth_error copies 0 = Some n.
Proof.
  unfold reference_shape. destruct existing as [x | ]; intros H Hin.
  { run_ret H. contradiction. }
  apply synthesize_cases in H.
  destruct H as [(_ & ->) | (copies & [(_ & _ & ->) | (dup & Hdup & [(_ & ->) | (sl & [(_ & _ & ->) | (tmp & _ & [(_ & ->) | [(_ & ->) | (rest & -> & N & _)]])])])])];
    hunt Hin.
  exists copies. split; [left; reflexivity | exact Hdup].
Qed.

Lemma first_flagged_unique (s : Scene) (flag : bool) (pre : list string) :
  forall (pre' post post' : list string) (a b : string),
  pre ++ a :: post = pre' ++ b :: post' ->
  (forall y, In y pre -> intermediate_is host s y (negb flag)) ->
  intermediate_is host s a flag ->
  (forall y, In y pre' -> intermediate_is host s y (negb flag)) ->
  intermediate_is host s b flag ->
  a = b.
Proof.
  assert (forall x, intermediate_is host s x flag ->
                    intermediate_is host s x (negb flag) -> False) as Hclash.
  { intros x H1 H2. pose proof (intermediate_functional _ _ _ _ H1 H2) as E.
    destruct flag; discriminate E. }
  induction pre as [ | x pre IH]; intros [ | y pre'] post post' a b E Hpre Ha Hpre' Hb;
    cbn [app] in E; injection E as E1 E2.
  - exact E1.
  - exfalso. subst y. exact (Hclash a Ha (Hpre' a (or_introl eq_refl))).
  - exfalso. subst x. exact (Hclash b Hb (Hpre b (or_introl eq_refl))).
  - apply (IH pre' post post' a b E2); auto.
    + intros z Hz. apply Hpre. now right.
    + intros z Hz. apply Hpre'. now right.
Qed.

Lemma rejected_is_unknown (default : Z) (axis : option string) :
  axis_choice default axis = None -> unknown_axis axis.
Proof.
  destruct axis as [[ | c a] | ]; try discriminate. intros H.
  exists (String c a). split; [reflexivity | ]. split; [discriminate | ].
  exact (rejected_axis_unknown _ _ H).
Qed.

(** The whole record of a run that stops in an argument error. *)
Lemma run_argument_error_record
    (object_to_pin surface : string) (u v : Q) (local_space normalize : bool)
    (normal_axis tangent_axis : option string) (reset_transforms : bool)
    (s s' : Scene) (message : string) (tr : list Event) :
  make_uv_pin host object_to_pin surface u v local_space normalize
    normal_axis tangent_axis reset_transforms s
  = (Raised (ArgumentError message), s', tr) ->
  exists p existing ai aw ao origin sA tA sB tB pin,
    locate host surface s = (Returned (p, existing, (ai, aw, ao)), sA, tA) /\
    reference_shape host surface p ai aw existing sA = (Returned origin, sB, tB) /\
    ((axis_choice 1 normal_axis = None /\
      tr = tA ++ tB ++ pin_events object_to_pin p origin aw ao pin) \/
     (exists k,
         axis_choice 1 normal_axis = Some k /\
         axis_choice 0 tangent_axis = None /\
         tr = tA ++ tB ++ pin_events object_to_pin p origin aw ao pin
              ++ [Done (setAttr (pin ++ ".normalAxis") k) tt])).
Proof.
  intros H. apply steps_run in H.
  inversion H as
    [ e s1 t HA
    | p existing ai aw ao sA tA e s1 t HA HB
    | p existing ai aw ao sA tA origin sB tB e s1 t HA HB HC
    | p existing ai aw ao sA tA origin sB tB pin sC tC e s1 t HA HB HC HN
    | p existing ai aw ao sA tA origin sB tB pin sC tC sN tN e s1 t HA HB HC HN HT
    | p existing ai aw ao sA tA origin sB tB pin sC tC sN tN sT tT e s1 t HA HB HC HN HT HE
    | ]; subst.
  - apply locate_inv in HA.
    destruct HA as [(r & s2 & _ & _ & E & _) | [(q & ty & pre & _ & _ & _ & E) | (c & E & _)]];
      discriminate E.
  - apply reference_shape_inv in HB. destruct HB as (_ & _ & [E | [E | (c & E)]]);
      discriminate E.
  - apply create_pin_inv in HC.
    destruct HC as [(x & E & _) | [(E & _) | (x & [(E & _) | [(E & _) | (E & _)]])]];
      discriminate E.
  - apply create_pin_returned in HC as ->. apply axis_step_inv in HN.
    destruct (axis_choice 1 normal_axis) as [k | ] eqn:Hk.
    + destruct HN as [(E & _) | (E & _)]; discriminate E.
    + destruct HN as (a & _ & _ & -> & _).
      exists p, existing, ai, aw, ao, origin, sA, tA, sB, tB, pin.
      rewrite app_nil_r. auto.
  - apply create_pin_returned in HC as ->.
    apply axis_step_returned in HN as (k & Hk & ->). apply axis_step_inv in HT.
    destruct (axis_choice 0 tangent_axis) as [k' | ] eqn:Hk'.
    + destruct HT as [(E & _) | (E & _)]; discriminate E.
    + destruct HT as (a & _ & _ & -> & _).
      exists p, existing, ai, aw, ao, origin, sA, tA, sB, tB, pin.
      rewrite app_nil_r. split; [exact HA | ]. split; [exact HB | ].
      right. exists k. auto.
  - apply configure_inv in HE. destruct HE as [(E & _) | (c & E & _)]; discriminate E.
Qed.

(** Go through the record of a run stopped by an argument error. *)
Ltac stopped_events Hsplit HtB Htail Hattrs Hin :=
  apply Hsplit in Hin;
  destruct Hin as [Hin | [Hin | [Hin | Hin]]];
  [ misplaced Hin
  | destruct HtB as [-> | (copies & dup & sl & tmp & conn & Hconn & ->)];
    [ contradiction
    | unfold synthesis_events in Hin;
      destruct Hattrs as [E | E]; injection E as -> -> ->;
      (destruct Hconn as [Hconn | (me & up & more & ->)];
       [ destruct conn as [[ | ? ?] | ]; try discriminate Hconn | ]); hunt Hin ]
  | unfold pin_events in Hin; hunt Hin
  | destruct Htail as [-> | (k & Hk & Hk' & ->)]; hunt Hin ].

Lemma reference_shape_forced (surface p ai aw : string) (existing : option string)
    (s s' : Scene) (o : Outcome string) (t : list Event) (source destination : string) :
  reference_shape host surface p ai aw existing s = (o, s', t) ->
  In (Done (connectAttr source destination true) tt) t ->
  exists origin tmp,
    source = (origin ++ aw)%string /\ destination = (p ++ ai)%string /\
    In (Done (rename tmp (p ++ "Orig")) origin) t.
Proof.
  unfold reference_shape. destruct existing as [x | ]; intros H Hin.
  { run_ret H. contradiction. }
  unfold synthesize in H.
  run_cmd H; [hunt Hin | ].
  run_subscript H; [hunt Hin | ].
  run_cmd H; [hunt Hin | ].
  run_bind H; [destruct (truthy a0); [run_ret Hm | run_throw Hm; hunt Hin] | ].
  destruct (truthy a0); [run_ret Hm | run_throw Hm].
  run_subscript H; [hunt Hin | ].
  run_cmd H; [hunt Hin | ].
  run_cmd H; [hunt Hin | ].
  run_cmd H; [hunt Hin | ].
  run_cmd H; [hunt Hin | ].
  destruct a2 as [[ | me [ | up more]] | ]; cbn [truthy or_empty] in H.
  - run_bind H; run_ret Hm. run_cmd H; [hunt Hin | ].
    run_cmd H; [ | run_ret H]; hunt Hin;
      eexists _, _; (split; [reflexivity | split; [reflexivity | in_tac]]).
  - run_bind H; run_subscript Hm; try discriminate. hunt Hin.
  - run_bind H.
    + run_subscript Hm; [discriminate | ].
      cmd_cases Hm; destruct Hm as [(_ & Ho & _ & ->) | (y & _ & Ho & _)];
        [ | discriminate Ho].
      injection Ho as ->. hunt Hin.
    + run_subscript Hm.
      cmd_cases Hm; destruct Hm as [(_ & Ho & _ & _) | ([] & _ & _ & ->)];
        [discriminate Ho | ].
      run_cmd H; [hunt Hin | ].
      run_cmd H; [ | run_ret H]; hunt Hin;
        eexists _, _; (split; [reflexivity | split; [reflexivity | in_tac]]).
  - run_bind H; run_ret Hm. run_cmd H; [hunt Hin | ].
    run_cmd H; [ | run_ret H]; hunt Hin;
      eexists _, _; (split; [reflexivity | split; [reflexivity | in_tac]]).
Qed.

Lemma configure_unforced (object_to_pin pin : string) (u v : Q)
    (local_space normalize : bool) (s s' : Scene) (o : Outcome unit) (t : list Event)
    (source destination : string) :
  configure host object_to_pin pin u v local_space normalize s = (o, s', t) ->
  ~ In (Done (connectAttr source destination true) tt) t.
Proof.
  unfold configure. intros H Hin.
  run_cmd H; [hunt Hin | ].
  run_cmd H; [hunt Hin | ].
  run_cmd H; [hunt Hin | ].
  destruct normalize; run_bind H;
    try (cmd_cases Hm; destruct Hm as [(_ & Ho & _ & ->) | ([] & _ & Ho & ->)];
         try discriminate Ho);
    try run_ret Hm;
    try (destruct local_space;
         cmd_cases H; destruct H as [(_ & _ & _ & ->) | ([] & _ & _ & ->)]);
    hunt Hin.
Qed.

(** ** Further statements *)

(** X1.  In a run that returns, the last value written to the pin's
    normalizedIsoParms is 1 when [normalize] is true and 0 when it is
    false; no normalizedIsoParms is ever written with a value other than 0
    and 1, and with 1 only when [normalize] is true. *)
Theorem normalize_sets_final_value
    (object_to_pin surface : string) (u v : Q) (local_space normalize : bool)
    (normal_axis tangent_axis : option string) (reset_transforms : bool)
    (s s' : Scene) (pin : string) (tr : list Event) :
  make_uv_pin host object_to_pin surface u v local_space normalize
    normal_axis tangent_axis reset_transforms s = (Returned pin, s', tr) ->
  (exists before after,
      tr = before
           ++ Done (setAttr (pin ++ ".normalizedIsoParms")
                      (if normalize then 1 else 0)) tt :: after /\
      forall node value,
        ~ In (Done (setAttr (node ++ ".normalizedIsoParms") value) tt) after) /\
  (forall node value,
      In (Done (setAttr (node ++ ".normalizedIsoParms") value) tt) tr ->
      value = 0%Z \/ (normalize = true /\ value = 1%Z)).
Proof.
  intros H. split.
  - apply run_returned in H.
    destruct H as (p & existing & ai & aw & ao & origin & sA & tA & sB & tB &
                   normal & tangent & _ & _ & _ & _ & ->).
    unfold wiring_events, configure_events. destruct normalize.
    + exists (tA ++ tB ++ pin_events object_to_pin p origin aw ao pin
              ++ [Done (setAttr (pin ++ ".normalAxis") normal) tt;
                  Done (setAttr (pin ++ ".tangentAxis") tangent) tt;
                  Done (setAttr (pin ++ ".normalizedIsoParms") 0) tt;
                  Done (setAttr_float2 (pin ++ ".coordinate[0]") u v) tt;
                  Done (connectAttr (pin ++ ".outputMatrix[0]")
                          (object_to_pin ++ ".offsetParentMatrix") false) tt]),
        [if local_space then Done (setAttr (pin ++ ".relativeSpaceMode") 1) tt
         else Done (setAttr (object_to_pin ++ ".inheritsTransform") 0) tt].
      split; [rewrite <- !app_assoc; reflexivity | ].
      intros node value Hin. destruct local_space; hunt Hin; suffix_clash.
    + exists (tA ++ tB ++ pin_events object_to_pin p origin aw ao pin
              ++ [Done (setAttr (pin ++ ".normalAxis") normal) tt;
                  Done (setAttr (pin ++ ".tangentAxis") tangent) tt]),
        [Done (setAttr_float2 (pin ++ ".coordinate[0]") u v) tt;
         Done (connectAttr (pin ++ ".outputMatrix[0]")
                 (object_to_pin ++ ".offsetParentMatrix") false) tt;
         if local_space then Done (setAttr (pin ++ ".relativeSpaceMode") 1) tt
         else Done (setAttr (object_to_pin ++ ".inheritsTransform") 0) tt].
      split; [rewrite <- !app_assoc; reflexivity | ].
      intros node value Hin. destruct local_space; hunt Hin; suffix_clash.
  - intros node value Hin.
    destruct normalize, local_space; returned_events H Hin; try suffix_clash; auto.
Qed.


(** X3.  The only node a run ever deletes is the copy it made itself:
    every delete in the record is of the first node that the run's own
    duplicate command returned. *)
Theorem deletes_only_the_copy
    (object_to_pin surface : string) (u v : Q) (local_space normalize : bool)
    (normal_axis tangent_axis : option string) (reset_transforms : bool)
    (s s' : Scene) (o : Outcome string) (tr : list Event) (n : string) :
  make_uv_pin host object_to_pin surface u v local_space normalize
    normal_axis tangent_axis reset_transforms s = (o, s', tr) ->
  In (Done (delete n) tt) tr ->
  exists (active : string) (copies : list string),
    In (Done (duplicate active) copies) tr /\ nth_error copies 0 = Some n.
Proof.
  intros H Hin. apply steps_run in H.
  destruct H as
    [ e s1 t HA
    | p existing ai aw ao sA tA e s1 t HA HB
    | p existing ai aw ao sA tA origin sB tB e s1 t HA HB HC
    | p existing ai aw ao sA tA origin sB tB pin sC tC e s1 t HA HB HC HN
    | p existing ai aw ao sA tA origin sB tB pin sC tC sN tN e s1 t HA HB HC HN HT
    | p existing ai aw ao sA tA origin sB tB pin sC tC sN tN sT tT e s1 t HA HB HC HN HT HE
    | p existing ai aw ao sA tA origin sB tB pin sC tC sN tN sT tT s1 t HA HB HC HN HT HE ];
    step_names.
  1: misplaced Hin.
  all: apply in_app_or in Hin; destruct Hin as [Hin | Hin]; [misplaced Hin | ].
  1: { destruct (reference_shape_delete _ _ _ _ _ _ _ _ _ _ HB Hin) as (copies & Hc & Hn).
       exists p, copies. split; [in_tac | exact Hn]. }
  all: apply in_app_or in Hin; destruct Hin as [Hin | Hin]; [ | hunt Hin];
    destruct (reference_shape_delete _ _ _ _ _ _ _ _ _ _ HB Hin) as (copies & Hc & Hn);
    exists p, copies; (split; [in_tac | exact Hn]).
Qed.

(** X4.  In a run that returns, the type the host reports for the primary
    shape decides the plugs that feed the pin: for a mesh the shape's
    worldMesh[0] goes to deformedGeometry and the reference shape's outMesh
    to originalGeometry; for a nurbsSurface these are worldSpace[0] and
    local. *)
Theorem surface_type_selects_plugs
    (object_to_pin surface : string) (u v : Q) (local_space normalize : bool)
    (normal_axis tangent_axis : option string) (reset_transforms : bool)
    (s s' : Scene) (pin : string) (tr : list Event)
    (primary ty : string) :
  make_uv_pin host object_to_pin surface u v local_space normalize
    normal_axis tangent_axis reset_transforms s = (Returned pin, s', tr) ->
  In (Done (objectType primary) ty) tr ->
  (ty = "mesh"%string /\
   In (Done (connectAttr (primary ++ ".worldMesh[0]")
               (pin ++ ".deformedGeometry") false) tt) tr /\
   exists reference,
     In (Done (connectAttr (reference ++ ".outMesh")
                 (pin ++ ".originalGeometry") false) tt) tr) \/
  (ty = "nurbsSurface"%string /\
   In (Done (connectAttr (primary ++ ".worldSpace[0]")
               (pin ++ ".deformedGeometry") false) tt) tr /\
   exists reference,
     In (Done (connectAttr (reference ++ ".local")
                 (pin ++ ".originalGeometry") false) tt) tr).
Proof.
  intros H Hin. apply run_returned in H.
  destruct H as (p & existing & ai & aw & ao & origin & sA & tA & sB & tB &
                 normal & tangent & HA & HB & _ & _ & ->).
  pose proof (reference_shape_named _ _ _ _ _ _ _ _ _ HB) as NB.
  pose proof (wiring_events_named object_to_pin p origin aw ao pin normal tangent
                u v local_space normalize) as NW.
  apply locate_inv in HA.
  destruct HA as (r & first & rest & found & ty' & s1 & s2 & s3 & t1 & t2 &
                  _ & _ & H1 & _ & H2 & _ & Hty & ->).
  apply next_shape_named in H1, H2. hunt Hin.
  apply surface_attrs_inv in Hty.
  destruct Hty as [(-> & E) | (-> & E)]; injection E as -> -> ->; [left | right];
    (split; [reflexivity | ]);
    (split; [ | exists origin]); unfold wiring_events, pin_events; in_tac.
Qed.

(** X5.  On a host whose queries leave the scene alone, in a run that
    returns: the first shape child, in the order the host lists them, that
    is not flagged intermediate feeds the pin's deformedGeometry, and the
    first one that is flagged intermediate feeds its originalGeometry. *)
Theorem shapes_chosen_in_listing_order
    (object_to_pin surface : string) (u v : Q) (local_space normalize : bool)
    (normal_axis tangent_axis : option string) (reset_transforms : bool)
    (s s' : Scene) (pin : string) (tr : list Event) :
  read_only_queries host ->
  make_uv_pin host object_to_pin surface u v local_space normalize
    normal_axis tangent_axis reset_transforms s = (Returned pin, s', tr) ->
  exists ai aw ao,
    ((ai, aw, ao) = (".inMesh", ".worldMesh[0]", ".outMesh")%string \/
     (ai, aw, ao) = (".create", ".worldSpace[0]", ".local")%string) /\
    (forall pre active post,
        shape_children host s surface = pre ++ active :: post ->
        (forall y, In y pre -> intermediate_is host s y true) ->
        intermediate_is host s active false ->
        In (Done (connectAttr (active ++ aw) (pin ++ ".deformedGeometry") false) tt) tr) /\
    (forall pre reference post,
        shape_children host s surface = pre ++ reference :: post ->
        (forall y, In y pre -> intermediate_is host s y false) ->
        intermediate_is host s reference true ->
        In (Done (connectAttr (reference ++ ao) (pin ++ ".originalGeometry") false) tt) tr).
Proof.
  intros RO H. apply run_returned in H.
  destruct H as (p & existing & ai & aw & ao & origin & sA & tA & sB & tB &
                 normal & tangent & HA & HB & _ & _ & ->).
  pose proof (attrs_of_locate _ _ _ _ _ _ _ _ _ HA) as Hattrs.
  destruct (locate_sound _ _ _ _ _ _ _ RO HA) as (first & rest & Hc & Hp & He).
  exists ai, aw, ao. split; [exact Hattrs | ]. split.
  - intros pre active post Hl Hpre Hactive. rewrite Hc in Hl.
    assert (p = active) as ->.
    { destruct Hp as [(pre' & post' & E & Hpre' & Hp) | (_ & Hall)].
      - rewrite Hl in E.
        exact (eq_sym (first_flagged_unique s false _ _ _ _ _ _ E Hpre Hactive Hpre' Hp)).
      - assert (In active (first :: rest)) as I by (rewrite Hl; apply in_elt).
        discriminate (intermediate_functional _ _ _ _ (Hall active I) Hactive). }
    unfold wiring_events, pin_events. in_tac.
  - intros pre reference post Hl Hpre Hreference. rewrite Hc in Hl.
    assert (existing = Some reference) as ->.
    { destruct existing as [x | ].
      - destruct He as (pre' & post' & E & Hpre' & Hx). rewrite Hl in E.
        now rewrite (first_flagged_unique s true _ _ _ _ _ _ E Hpre Hreference Hpre' Hx).
      - assert (In reference (first :: rest)) as I by (rewrite Hl; apply in_elt).
        discriminate (intermediate_functional _ _ _ _ (He reference I) Hreference). }
    apply reference_shape_inv in HB.
    destruct HB as [(E & _) | (E & _)]; [injection E as <- | discriminate E].
    unfold wiring_events, pin_events. in_tac.
Qed.

(** X6.  A run that stops in an argument error leaves the pinned object
    zeroed but not pinned: the xform has been done, while no coordinate has
    been set, nothing has been connected into the object's
    offsetParentMatrix and no tangentAxis has been written; a normalAxis
    has been written only when the symbol at fault is [tangent_axis], and
    then with the value [normal_axis] selects. *)
Theorem argument_error_leaves_object_unpinned
    (object_to_pin surface : string) (u v : Q) (local_space normalize : bool)
    (normal_axis tangent_axis : option string) (reset_transforms : bool)
    (s s' : Scene) (message : string) (tr : list Event) :
  make_uv_pin host object_to_pin surface u v local_space normalize
    normal_axis tangent_axis reset_transforms s
  = (Raised (ArgumentError message), s', tr) ->
  In (Done (xform object_to_pin [0; 0; 0]%Z [0; 0; 0]%Z) tt) tr /\
  (forall plug a b, ~ In (Done (setAttr_float2 plug a b) tt) tr) /\
  (forall source force,
      ~ In (Done (connectAttr source (object_to_pin ++ ".offsetParentMatrix") force)
              tt) tr) /\
  (forall node value,
      ~ In (Done (setAttr (node ++ ".tangentAxis") value) tt) tr) /\
  (forall node value,
      In (Done (setAttr (node ++ ".normalAxis") value) tt) tr ->
      axis_choice 1 normal_axis = Some value /\ unknown_axis tangent_axis).
Proof.
  intros H. apply run_argument_error_record in H.
  destruct H as (p & existing & ai & aw & ao & origin & sA & tA & sB & tB & pin &
                 HA & HB & Hshape).
  pose proof (attrs_of_locate _ _ _ _ _ _ _ _ _ HA) as Hattrs.
  pose proof (locate_named _ _ _ _ _ HA) as NA.
  assert (tB = [] \/
          exists copies dup sl tmp conn,
            (truthy conn = false \/ exists me up more, conn = Some (me :: up :: more)) /\
            tB = synthesis_events surface p ai aw copies dup sl tmp origin conn)
    as HtB.
  { apply reference_shape_inv in HB.
    destruct HB as [(_ & ->) | (_ & copies & dup & sl & tmp & conn & _ & _ & Hconn & ->)];
      [left; reflexivity | right; eauto 8]. }
  clear HA HB.
  assert (exists tail,
             tr = tA ++ tB ++ pin_events object_to_pin p origin aw ao pin ++ tail /\
             (tail = [] \/
              exists k, axis_choice 1 normal_axis = Some k /\
                        axis_choice 0 tangent_axis = None /\
                        tail = [Done (setAttr (pin ++ ".normalAxis") k) tt]))
    as (tail & -> & Htail).
  { destruct Hshape as [(_ & ->) | (k & Hk & Hk' & ->)].
    - exists []. rewrite app_nil_r. auto.
    - eexists. split; [reflexivity | ]. right. exists k. auto. }
  clear Hshape.
  assert (forall e, In e (tA ++ tB
                          ++ pin_events object_to_pin p origin aw ao pin ++ tail) ->
            In e tA \/ In e tB \/ In e (pin_events object_to_pin p origin aw ao pin)
            \/ In e tail) as Hsplit.
  { intros e Hin. repeat (apply in_app_or in Hin; destruct Hin as [Hin | Hin]); auto. }
  split; [unfold pin_events; in_tac | ].
  split; [ | split; [ | split]].
  - intros plug a b Hin. stopped_events Hsplit HtB Htail Hattrs Hin.
  - intros source force Hin. stopped_events Hsplit HtB Htail Hattrs Hin; suffix_clash.
  - intros node value Hin. stopped_events Hsplit HtB Htail Hattrs Hin; suffix_clash.
  - intros node value Hin. stopped_events Hsplit HtB Htail Hattrs Hin;
      try suffix_clash.
    split; [assumption | ]. now apply (rejected_is_unknown 0).
Qed.

(** X7.  A subscript fails in two places only: when [duplicate] answers an
    empty list, and when [listConnections] answers a list of one plug;
    the run then stops right after that answer. *)
Theorem index_error_origin
    (object_to_pin surface : string) (u v : Q) (local_space normalize : bool)
    (normal_axis tangent_axis : option string) (reset_transforms : bool)
    (s s' : Scene) (tr : list Event) :
  make_uv_pin host object_to_pin surface u v local_space normalize
    normal_axis tangent_axis reset_transforms s = (Raised IndexError, s', tr) ->
  exists before,
    (exists active, tr = before ++ [Done (duplicate active) []]) \/
    (exists plug x, tr = before ++ [Done (listConnections plug) (Some [x])]).
Proof.
  intros H. apply steps_run in H.
  inversion H as
    [ e s1 t HA
    | p existing ai aw ao sA tA e s1 t HA HB
    | p existing ai aw ao sA tA origin sB tB e s1 t HA HB HC
    | p existing ai aw ao sA tA origin sB tB pin sC tC e s1 t HA HB HC HN
    | p existing ai aw ao sA tA origin sB tB pin sC tC sN tN e s1 t HA HB HC HN HT
    | p existing ai aw ao sA tA origin sB tB pin sC tC sN tN sT tT e s1 t HA HB HC HN HT HE
    | ]; subst.
  - apply locate_inv in HA.
    destruct HA as [(r & s2 & _ & _ & E & _) | [(q & ty & pre & _ & _ & _ & E) | (c & E & _)]];
      discriminate E.
  - unfold reference_shape in HB. destruct existing as [x | ]; [run_ret HB | ].
    apply synthesize_cases in HB.
    destruct HB as [(E & _) | (copies & [(-> & _ & ->) | (dup & Hdup & [(E & _) | (sl & [(_ & E & _) | (tmp & _ & [(E & _) | [(E & _) | (rest & -> & _ & origin & x & ->)]])])])])];
      try discriminate E.
    + exists tA. left. exists p. reflexivity.
    + eexists (tA ++ [_; _; _; _; _]). right. exists (p ++ ai)%string, x.
      rewrite <- app_assoc. reflexivity.
  - apply create_pin_inv in HC.
    destruct HC as [(x & E & _) | [(E & _) | (x & [(E & _) | [(E & _) | (E & _)]])]];
      discriminate E.
  - apply axis_step_inv in HN. destruct (axis_choice 1 normal_axis).
    + destruct HN as [(E & _) | (E & _)]; discriminate E.
    + destruct HN as (a & _ & E & _). discriminate E.
  - apply axis_step_inv in HT. destruct (axis_choice 0 tangent_axis).
    + destruct HT as [(E & _) | (E & _)]; discriminate E.
    + destruct HT as (a & _ & E & _). discriminate E.
  - apply configure_inv in HE. destruct HE as [(E & _) | (c & E & _)]; discriminate E.
Qed.

(** X8.  No command that changes the scene is issued before the checks
    have passed: whatever command of the record is not a query comes after
    the listing of the surface, answered with at least one shape, and
    after the type query of the primary shape, answered mesh or
    nurbsSurface. *)
Theorem changes_only_after_checks
    (object_to_pin surface : string) (u v : Q) (local_space normalize : bool)
    (normal_axis tangent_axis : option string) (reset_transforms : bool)
    (s s' : Scene) (o : Outcome string) (tr before after : list Event) (e : Event) :
  make_uv_pin host object_to_pin surface u v local_space normalize
    normal_axis tangent_axis reset_transforms s = (o, s', tr) ->
  tr = before ++ e :: after -> is_query (call_of e) = false ->
  exists relatives primary ty,
    or_empty relatives <> [] /\
    In (Done (listRelatives surface) relatives) before /\
    In (Done (objectType primary) ty) before /\
    (ty = "mesh"%string \/ ty = "nurbsSurface"%string).
Proof.
  intros H Htr Hchange. apply steps_run in H.
  assert (forall p existing attrs sA tA rest,
             locate host surface s = (Returned (p, existing, attrs), sA, tA) ->
             tr = tA ++ rest ->
             exists relatives primary ty,
               or_empty relatives <> [] /\
               In (Done (listRelatives surface) relatives) before /\
               In (Done (objectType primary) ty) before /\
               (ty = "mesh"%string \/ ty = "nurbsSurface"%string)) as Hpassed.
  { intros p existing attrs sA tA rest HA E.
    pose proof (locate_named _ _ _ _ _ HA) as NA. apply queries_only in NA.
    rewrite Htr in E. symmetry in E.
    destruct (queries_come_first _ _ _ _ _ E NA Hchange) as (mid & ->).
    apply locate_inv in HA.
    destruct HA as (r & first & rest' & found & ty & s1 & s2 & s3 & t1 & t2 &
                    _ & Hr & _ & _ & _ & _ & Hty & ->).
    exists r, p, ty. split; [rewrite Hr; discriminate | ].
    split; [left; reflexivity | ]. split; [in_tac | ].
    apply surface_attrs_inv in Hty. tauto. }
  destruct H as
    [ e' s1 t HA
    | p existing ai aw ao sA tA e' s1 t HA HB
    | p existing ai aw ao sA tA origin sB tB e' s1 t HA HB HC
    | p existing ai aw ao sA tA origin sB tB pin' sC tC e' s1 t HA HB HC HN
    | p existing ai aw ao sA tA origin sB tB pin' sC tC sN tN e' s1 t HA HB HC HN HT
    | p existing ai aw ao sA tA origin sB tB pin' sC tC sN tN sT tT e' s1 t HA HB HC HN HT HE
    | p existing ai aw ao sA tA origin sB tB pin' sC tC sN tN sT tT s1 t HA HB HC HN HT HE ].
  1: { exfalso. apply locate_named in HA. apply queries_only in HA.
       rewrite Forall_forall in HA.
       assert (In e t) as Hin by (rewrite Htr; apply in_elt).
       specialize (HA e Hin). unfold query_event in HA. congruence. }
  all: eapply Hpassed; [exact HA | reflexivity].
Qed.

(** X9.  The only connection a run ever forces is the one from the new
    reference shape's world output into the active shape's input: every
    [connectAttr] with [force=True] in the record has these two plugs, the
    reference shape being the one the run has renamed.  The connections
    into the pin and into the object's offsetParentMatrix are never
    forced. *)
Theorem forces_only_the_shape_input
    (object_to_pin surface : string) (u v : Q) (local_space normalize : bool)
    (normal_axis tangent_axis : option string) (reset_transforms : bool)
    (s s' : Scene) (o : Outcome string) (tr : list Event)
    (source destination : string) :
  make_uv_pin host object_to_pin surface u v local_space normalize
    normal_axis tangent_axis reset_transforms s = (o, s', tr) ->
  In (Done (connectAttr source destination true) tt) tr ->
  exists active origin tmp ai aw,
    ((ai, aw) = (".inMesh", ".worldMesh[0]")%string \/
     (ai, aw) = (".create", ".worldSpace[0]")%string) /\
    source = (origin ++ aw)%string /\
    destination = (active ++ ai)%string /\
    In (Done (rename tmp (active ++ "Orig")) origin) tr.
Proof.
  intros H Hin. apply steps_run in H.
  assert (forall p existing ai aw ao sA tA,
             locate host surface s = (Returned (p, existing, (ai, aw, ao)), sA, tA) ->
             (ai, aw) = (".inMesh", ".worldMesh[0]")%string \/
             (ai, aw) = (".create", ".worldSpace[0]")%string) as Hattrs.
  { intros p existing ai aw ao sA tA HA.
    destruct (attrs_of_locate _ _ _ _ _ _ _ _ _ HA) as [E | E];
      injection E as -> -> ->; auto. }
  assert (forall p origin aw ao sB o' sC tC,
             create_pin host object_to_pin p origin aw ao sB = (o', sC, tC) ->
             ~ In (Done (connectAttr source destination true) tt) tC) as Hpin.
  { intros p origin aw ao sB o' sC tC HC K. apply create_pin_inv in HC.
    destruct HC as [(x & _ & ->) | [(_ & ->) | (x & [(_ & ->) | [(_ & ->) | (_ & ->)]])]];
      unfold pin_events in K; hunt K. }
  destruct H as
    [ e s1 t HA
    | p existing ai aw ao sA tA e s1 t HA HB
    | p existing ai aw ao sA tA origin sB tB e s1 t HA HB HC
    | p existing ai aw ao sA tA origin sB tB pin sC tC e s1 t HA HB HC HN
    | p existing ai aw ao sA tA origin sB tB pin sC tC sN tN e s1 t HA HB HC HN HT
    | p existing ai aw ao sA tA origin sB tB pin sC tC sN tN sT tT e s1 t HA HB HC HN HT HE
    | p existing ai aw ao sA tA origin sB tB pin sC tC sN tN sT tT s1 t HA HB HC HN HT HE ];
    step_names.
  1: misplaced Hin.
  all: specialize (Hattrs _ _ _ _ _ _ _ HA);
    apply in_app_or in Hin; destruct Hin as [Hin | Hin]; [misplaced Hin | ].
  1: { destruct (reference_shape_forced _ _ _ _ _ _ _ _ _ _ _ HB Hin)
         as (origin & tmp & -> & -> & Hr).
       exists p, origin, tmp, ai, aw. repeat (split; [auto; fail | ]). in_tac. }
  all: apply in_app_or in Hin; destruct Hin as [Hin | Hin];
    [ destruct (reference_shape_forced _ _ _ _ _ _ _ _ _ _ _ HB Hin)
        as (origin' & tmp & -> & -> & Hr);
      exists p, origin', tmp, ai, aw; repeat (split; [auto; fail | ]); in_tac
    | exfalso ].
  all: try (exact (Hpin _ _ _ _ _ _ _ _ HC Hin)).
  all: apply in_app_or in Hin; destruct Hin as [Hin | Hin];
    [exact (Hpin _ _ _ _ _ _ _ _ HC Hin) | ].
  all: try (misplaced Hin).
  all: apply in_app_or in Hin; destruct Hin as [Hin | Hin]; [misplaced Hin | ].
  all: try (misplaced Hin).
  all: apply in_app_or in Hin; destruct Hin as [Hin | Hin]; [misplaced Hin | ].
  all: exact (configure_unforced _ _ _ _ _ _ _ _ _ _ _ _ HE Hin).
Qed.

End Runs.

(** ** The statements on the stand-in host *)

Lemma studio_read_only : read_only_queries Studio.handle.
Proof.
  intros c s s1 a Hq. destruct c; try discriminate Hq; cbn [Studio.handle].
  - destruct (Studio.has_node s node); [ | discriminate]. intros H. now injection H.
  - destruct (Studio.has_node s (Studio.node_of_plug plug)); [ | discriminate].
    intros H. now injection H.
  - destruct (Studio.find_node s node); [ | discriminate]. intros H. now injection H.
  - destruct (Studio.has_node s (Studio.node_of_plug plug)); [ | discriminate].
    intros H. now injection H.
Qed.

(** C1 on the cube: the run creates the pin node, and zeroes the locator
    whether [reset_transforms] is true or false. *)
Lemma reset_transforms_ignored_witness :
  exists o s' tr,
    make_uv_pin Studio.handle "locator1" "pCube1" (1 # 4)%Q (3 # 4)%Q false false
      None None true Studio.cube = (o, s', tr) /\
    In (Done (createNode "uvPin" "locator1_uvPin") "locator1_uvPin") tr /\
    make_uv_pin Studio.handle "locator1" "pCube1" (1 # 4)%Q (3 # 4)%Q false false
      None None false Studio.cube = (o, s', tr) /\
    In (Done (xform "locator1" [0; 0; 0]%Z [0; 0; 0]%Z) tt) tr.
Proof.
  pose (r := make_uv_pin Studio.handle "locator1" "pCube1" (1 # 4)%Q (3 # 4)%Q
               false false None None true Studio.cube).
  exists (fst (fst r)), (snd (fst r)), (snd r).
  assert (make_uv_pin Studio.handle "locator1" "pCube1" (1 # 4)%Q (3 # 4)%Q
            false false None None true Studio.cube
          = (fst (fst r), snd (fst r), snd r)) as H
    by (vm_compute; reflexivity).
  assert (In (Done (createNode "uvPin" "locator1_uvPin") "locator1_uvPin") (snd r))
    as Hin by (vm_compute; tauto).
  destruct (reset_transforms_ignored _ Studio.handle _ _ _ _ _ _ _ _ true false _ _ _ _ H)
    as (Hother & Hzero).
  split; [exact H | ]. split; [exact Hin | ]. split; [exact Hother | ].
  destruct (Hzero _ Hin) as [K | [(source & [K | K]) | K]];
    [exact K | | | ]; vm_compute in K; discriminate K.
Defined.

Lemma q_is_unknown : unknown_axis (Some "q").
Proof.
  exists "q". split; [reflexivity | ]. split; [discriminate | ].
  cbn. intros K. repeat (destruct K as [K | K]; try discriminate K). contradiction.
Qed.

(** C2, amended, on the mesh whose shapes are all intermediate, with
    [normal_axis="q"]: the argument error is raised after the pin node was
    created and connected. *)
Lemma unknown_axis_raises_after_pin_witness :
  unknown_axis (Some "q") /\
  exists s' tr,
    make_uv_pin Studio.handle "locator1" "ghost1" 0%Q 0%Q false false
      (Some "q") None true Studio.ghost
    = (Raised (ArgumentError "q isn't a valid axis, it should be x y z -x -y -z"),
       s', tr) /\
    exists p origin aw ao pin before after,
      tr = before ++ pin_events "locator1" p origin aw ao pin ++ after.
Proof.
  split; [exact q_is_unknown | ].
  pose (r := make_uv_pin Studio.handle "locator1" "ghost1" 0%Q 0%Q false false
               (Some "q") None true Studio.ghost).
  exists (snd (fst r)), (snd r).
  assert (make_uv_pin Studio.handle "locator1" "ghost1" 0%Q 0%Q false false
            (Some "q") None true Studio.ghost
          = (Raised (ArgumentError "q isn't a valid axis, it should be x y z -x -y -z"),
             snd (fst r), snd r)) as H
    by (vm_compute; reflexivity).
  split; [exact H | ].
  destruct (unknown_axis_raises_after_pin _ Studio.handle _ _ _ _ _ _ _ _ _ _ _ _ _
              (or_introl q_is_unknown) H) as (_ & _ & Hpin).
  exact (Hpin _ eq_refl).
Defined.

(** C2 as it stands fails on the cube: the empty string is none of the six
    symbols, and the run returns the pin. *)
Lemma empty_axis_not_rejected :
  ~ In "" axis_symbols /\
  fst (fst (make_uv_pin Studio.handle "locator1" "pCube1" 0%Q 0%Q false false
              (Some "") None true Studio.cube))
  = Returned "locator1_uvPin".
Proof.
  split.
  - cbn. intros K. repeat (destruct K as [K | K]; try discriminate K). contradiction.
  - vm_compute. reflexivity.
Qed.

(** C3 on the cube, [local_space] omitted. *)
Lemma space_mode_exclusive_witness :
  exists s' tr,
    make_uv_pin_kw Studio.handle "locator1" "pCube1" no_keywords Studio.cube
    = (Returned "locator1_uvPin", s', tr) /\
    In (Done (setAttr "locator1.inheritsTransform" 0) tt) tr /\
    forall node value,
      ~ In (Done (setAttr (node ++ ".relativeSpaceMode") value) tt) tr.
Proof.
  pose (r := make_uv_pin_kw Studio.handle "locator1" "pCube1" no_keywords Studio.cube).
  exists (snd (fst r)), (snd r).
  assert (make_uv_pin_kw Studio.handle "locator1" "pCube1" no_keywords Studio.cube
          = (Returned "locator1_uvPin", snd (fst r), snd r)) as H
    by (vm_compute; reflexivity).
  split; [exact H | ].
  exact (space_mode_exclusive _ Studio.handle _ _ _ _ _ _ _ H).
Defined.

(** C4 on the empty group and on the curve. *)
Lemma scene_errors_change_nothing_witness :
  (exists o s' tr,
      make_uv_pin Studio.handle "locator1" "group1" 0%Q 0%Q false false
        None None true Studio.odd = (o, s', tr) /\
      Studio.handle (listRelatives "group1") Studio.odd = Some (Studio.odd, None) /\
      o = Raised (SceneError "No shape nodes found on surface: group1") /\
      Forall query_event tr) /\
  (exists o s' tr,
      make_uv_pin Studio.handle "locator1" "curve1" 0%Q 0%Q false false
        None None true Studio.odd = (o, s', tr) /\
      In (Done (objectType "curveShape1") "nurbsCurve") tr /\
      o = Raised (SceneError "Unsupported surface type: nurbsCurve") /\
      Forall query_event tr).
Proof.
  split.
  - pose (r := make_uv_pin Studio.handle "locator1" "group1" 0%Q 0%Q false false
                 None None true Studio.odd).
    exists (fst (fst r)), (snd (fst r)), (snd r).
    assert (make_uv_pin Studio.handle "locator1" "group1" 0%Q 0%Q false false
              None None true Studio.odd = (fst (fst r), snd (fst r), snd r)) as H
      by (vm_compute; reflexivity).
    assert (Studio.handle (listRelatives "group1") Studio.odd = Some (Studio.odd, None))
      as Hh by (vm_compute; reflexivity).
    split; [exact H | ]. split; [exact Hh | ].
    destruct (scene_errors_change_nothing _ Studio.handle _ _ _ _ _ _ _ _ _ _ _ _ _ H)
      as (Hnone & _).
    exact (Hnone _ _ Hh eq_refl).
  - pose (r := make_uv_pin Studio.handle "locator1" "curve1" 0%Q 0%Q false false
                 None None true Studio.odd).
    exists (fst (fst r)), (snd (fst r)), (snd r).
    assert (make_uv_pin Studio.handle "locator1" "curve1" 0%Q 0%Q false false
              None None true Studio.odd = (fst (fst r), snd (fst r), snd r)) as H
      by (vm_compute; reflexivity).
    assert (In (Done (objectType "curveShape1") "nurbsCurve") (snd r)) as Hin
      by (vm_compute; tauto).
    split; [exact H | ]. split; [exact Hin | ].
    destruct (scene_errors_change_nothing _ Studio.handle _ _ _ _ _ _ _ _ _ _ _ _ _ H)
      as (_ & Htype).
    apply (Htype _ _ Hin); discriminate.
Defined.

(** C5 on the cube, which has no intermediate shape, and on the plane,
    which has one. *)
Lemma reference_shape_created_once_witness :
  read_only_queries Studio.handle /\
  (exists s' tr,
      make_uv_pin Studio.handle "locator1" "pCube1" 0%Q 0%Q false false
        None None true Studio.cube = (Returned "locator1_uvPin", s', tr) /\
      (forall x, In x (shape_children Studio.handle Studio.cube "pCube1") ->
                 intermediate_is Studio.handle Studio.cube x false) /\
      count_named "duplicate" tr = 1 /\
      count_named "parent" tr = 1 /\
      count_named "rename" tr = 1) /\
  (exists s' tr,
      make_uv_pin Studio.handle "locator1" "nurbsPlane1" 0%Q 0%Q false false
        None None true Studio.plane = (Returned "locator1_uvPin", s', tr) /\
      (exists x, In x (shape_children Studio.handle Studio.plane "nurbsPlane1") /\
                 intermediate_is Studio.handle Studio.plane x true) /\
      forall e, In e tr -> ~ named ["duplicate"; "parent"; "delete"; "rename"] e).
Proof.
  split; [exact studio_read_only | ]. split.
  - pose (r := make_uv_pin Studio.handle "locator1" "pCube1" 0%Q 0%Q false false
                 None None true Studio.cube).
    exists (snd (fst r)), (snd r).
    assert (make_uv_pin Studio.handle "locator1" "pCube1" 0%Q 0%Q false false
              None None true Studio.cube
            = (Returned "locator1_uvPin", snd (fst r), snd r)) as H
      by (vm_compute; reflexivity).
    assert (forall x, In x (shape_children Studio.handle Studio.cube "pCube1") ->
                      intermediate_is Studio.handle Studio.cube x false) as Hnone.
    { intros x Hx. vm_compute in Hx. destruct Hx as [<- | []].
      exists Studio.cube. vm_compute. reflexivity. }
    split; [exact H | ]. split; [exact Hnone | ].
    destruct (reference_shape_created_once _ Studio.handle _ _ _ _ _ _ _ _ _ _ _ _ _
                studio_read_only H) as (Hfresh & _).
    destruct (Hfresh Hnone)
      as (active & rest & ai & aw & ao & copies & dup & sl & tmp & origin & conn &
          normal & tangent & before & _ & _ & _ & _ & _ & _ & C).
    exact C.
  - pose (r := make_uv_pin Studio.handle "locator1" "nurbsPlane1" 0%Q 0%Q false false
                 None None true Studio.plane).
    exists (snd (fst r)), (snd r).
    assert (make_uv_pin Studio.handle "locator1" "nurbsPlane1" 0%Q 0%Q false false
              None None true Studio.plane
            = (Returned "locator1_uvPin", snd (fst r), snd r)) as H
      by (vm_compute; reflexivity).
    assert (exists x, In x (shape_children Studio.handle Studio.plane "nurbsPlane1") /\
                      intermediate_is Studio.handle Studio.plane x true) as Hsome.
    { exists "nurbsPlaneShape1Orig". split; [vm_compute; tauto | ].
      exists Studio.plane. vm_compute. reflexivity. }
    split; [exact H | ]. split; [exact Hsome | ].
    destruct (reference_shape_created_once _ Studio.handle _ _ _ _ _ _ _ _ _ _ _ _ _
                studio_read_only H) as (_ & Hkept).
    exact (proj1 (Hkept Hsome)).
Defined.

(** C6 on the plane, with [normal_axis="-z"] and [tangent_axis] omitted. *)
Lemma axis_enumerations_witness :
  exists s' tr,
    make_uv_pin Studio.handle "locator1" "nurbsPlane1" 0%Q 0%Q false false
      (Some "-z") None true Studio.plane = (Returned "locator1_uvPin", s', tr) /\
    In ("-z", 5%Z) axis_table /\
    In (Done (setAttr "locator1_uvPin.normalAxis" 5) tt) tr /\
    In (Done (setAttr "locator1_uvPin.tangentAxis" 0) tt) tr.
Proof.
  pose (r := make_uv_pin Studio.handle "locator1" "nurbsPlane1" 0%Q 0%Q false false
               (Some "-z") None true Studio.plane).
  exists (snd (fst r)), (snd r).
  assert (make_uv_pin Studio.handle "locator1" "nurbsPlane1" 0%Q 0%Q false false
            (Some "-z") None true Studio.plane
          = (Returned "locator1_uvPin", snd (fst r), snd r)) as H
    by (vm_compute; reflexivity).
  assert (In ("-z", 5%Z) axis_table) as Htable by (cbn; tauto).
  split; [exact H | ]. split; [exact Htable | ].
  destruct (axis_enumerations _ Studio.handle _ _ _ _ _ _ _ _ _ _ _ _ _ H)
    as (_ & Hnormal & Htangent & _).
  split; [exact (Hnormal _ _ eq_refl Htable) | exact (Htangent eq_refl)].
Defined.

(** C7 on the cube, with u = 1/4 and v = 3/4. *)
Lemma coordinate_matrix_and_result_witness :
  exists s' tr,
    make_uv_pin_kw Studio.handle "locator1" "pCube1"
      {| kw_u := Some (1 # 4)%Q; kw_v := Some (3 # 4)%Q; kw_local_space := None;
         kw_normalize := None; kw_normal_axis := None; kw_tangent_axis := None;
         kw_reset_transforms := None |} Studio.cube
    = (Returned "locator1_uvPin", s', tr) /\
    In (Done (setAttr_float2 "locator1_uvPin.coordinate[0]" (1 # 4)%Q (3 # 4)%Q) tt) tr /\
    In (Done (connectAttr "locator1_uvPin.outputMatrix[0]"
                "locator1.offsetParentMatrix" false) tt) tr /\
    In (Done (createNode "uvPin" "locator1_uvPin") "locator1_uvPin") tr.
Proof.
  pose (k := {| kw_u := Some (1 # 4)%Q; kw_v := Some (3 # 4)%Q; kw_local_space := None;
                kw_normalize := None; kw_normal_axis := None; kw_tangent_axis := None;
                kw_reset_transforms := None |}).
  pose (r := make_uv_pin_kw Studio.handle "locator1" "pCube1" k Studio.cube).
  exists (snd (fst r)), (snd r).
  assert (make_uv_pin_kw Studio.handle "locator1" "pCube1" k Studio.cube
          = (Returned "locator1_uvPin", snd (fst r), snd r)) as H
    by (vm_compute; reflexivity).
  split; [exact H | ].
  destruct (coordinate_matrix_and_result _ Studio.handle _ _ _ _ _ _ _ H)
    as (Hcoord & _ & Hmatrix & Hnode & _).
  split; [exact Hcoord | ]. split; [exact Hmatrix | exact Hnode].
Defined.

(** C8 on the cube, whose shape is fed by polyCube1.output. *)
Lemma upstream_rerouted_witness :
  exists s' tr,
    make_uv_pin Studio.handle "locator1" "pCube1" 0%Q 0%Q false false
      None None true Studio.cube = (Returned "locator1_uvPin", s', tr) /\
    In (Done (listConnections "pCubeShape1.inMesh")
          (Some ["pCubeShape1.inMesh"; "polyCube1.output"])) tr /\
    exists active origin ai aw tmp before after,
      "pCubeShape1.inMesh"%string = (active ++ ai)%string /\
      tr = before
           ++ [Done (rename tmp (active ++ "Orig")) origin;
               Done (listConnections "pCubeShape1.inMesh")
                 (Some ["pCubeShape1.inMesh"; "polyCube1.output"])]
           ++ after /\
      exists rest,
        after = Done (connectAttr "polyCube1.output" (origin ++ ai) false) tt
                :: Done (connectAttr (origin ++ aw) (active ++ ai) true) tt :: rest.
Proof.
  pose (r := make_uv_pin Studio.handle "locator1" "pCube1" 0%Q 0%Q false false
               None None true Studio.cube).
  assert (make_uv_pin Studio.handle "locator1" "pCube1" 0%Q 0%Q false false
            None None true Studio.cube
          = (Returned "locator1_uvPin", snd (fst r), snd r)) as H
    by (vm_compute; reflexivity).
  assert (In (Done (listConnections "pCubeShape1.inMesh")
                (Some ["pCubeShape1.inMesh"; "polyCube1.output"])) (snd r)) as Hin
    by (vm_compute; tauto).
  exists (snd (fst r)), (snd r). split; [exact H | ]. split; [exact Hin | ].
  destruct (upstream_rerouted _ Studio.handle _ _ _ _ _ _ _ _ _ _ _ _ _ _ _ _ _ H Hin)
    as (active & origin & ai & aw & tmp & before & after & Hplug & _ & Htr &
        [Hafter | [(_ & K) | (_ & K)]]); try discriminate K.
  exists active, origin, ai, aw, tmp, before, after.
  split; [exact Hplug | ]. split; [exact Htr | exact Hafter].
Defined.

(** C9 on the mesh whose two shapes are both flagged intermediate. *)
Lemma all_intermediate_fallback_witness :
  read_only_queries Studio.handle /\
  exists s' tr,
    make_uv_pin Studio.handle "locator1" "ghost1" 0%Q 0%Q false false
      None None true Studio.ghost = (Returned "locator1_uvPin", s', tr) /\
    (forall x, In x (shape_children Studio.handle Studio.ghost "ghost1") ->
               intermediate_is Studio.handle Studio.ghost x true) /\
    exists first rest aw ao,
      shape_children Studio.handle Studio.ghost "ghost1" = first :: rest /\
      In (Done (connectAttr (first ++ aw) "locator1_uvPin.deformedGeometry" false) tt) tr /\
      In (Done (connectAttr (first ++ ao) "locator1_uvPin.originalGeometry" false) tt) tr /\
      forall e, In e tr -> ~ named ["duplicate"; "parent"; "delete"; "rename"] e.
Proof.
  split; [exact studio_read_only | ].
  pose (r := make_uv_pin Studio.handle "locator1" "ghost1" 0%Q 0%Q false false
               None None true Studio.ghost).
  assert (make_uv_pin Studio.handle "locator1" "ghost1" 0%Q 0%Q false false
            None None true Studio.ghost
          = (Returned "locator1_uvPin", snd (fst r), snd r)) as H
    by (vm_compute; reflexivity).
  assert (forall x, In x (shape_children Studio.handle Studio.ghost "ghost1") ->
                    intermediate_is Studio.handle Studio.ghost x true) as Hall.
  { intros x Hx. vm_compute in Hx. destruct Hx as [<- | [<- | []]];
      exists Studio.ghost; vm_compute; reflexivity. }
  exists (snd (fst r)), (snd r). split; [exact H | ]. split; [exact Hall | ].
  destruct (all_intermediate_fallback _ Studio.handle _ _ _ _ _ _ _ _ _ _ _ _ _
              studio_read_only H Hall)
    as (first & rest & ai & aw & ao & normal & tangent & before &
        Hc & _ & _ & _ & Hd & Ho & Hn).
  exists first, rest, aw, ao.
  split; [exact Hc | ]. split; [exact Hd | ]. split; [exact Ho | exact Hn].
Defined.

(** C10 on the plane, with both axis arguments empty. *)
Lemma empty_axis_is_default_witness :
  exists s' tr,
    make_uv_pin Studio.handle "locator1" "nurbsPlane1" 0%Q 0%Q false false
      (Some "") (Some "") true Studio.plane = (Returned "locator1_uvPin", s', tr) /\
    make_uv_pin Studio.handle "locator1" "nurbsPlane1" 0%Q 0%Q false false
      None (Some "") true Studio.plane = (Returned "locator1_uvPin", s', tr) /\
    In (Done (setAttr "locator1_uvPin.normalAxis" 1) tt) tr /\
    In (Done (setAttr "locator1_uvPin.tangentAxis" 0) tt) tr.
Proof.
  pose (r := make_uv_pin Studio.handle "locator1" "nurbsPlane1" 0%Q 0%Q false false
               (Some "") (Some "") true Studio.plane).
  assert (make_uv_pin Studio.handle "locator1" "nurbsPlane1" 0%Q 0%Q false false
            (Some "") (Some "") true Studio.plane
          = (Returned "locator1_uvPin", snd (fst r), snd r)) as H
    by (vm_compute; reflexivity).
  exists (snd (fst r)), (snd r). split; [exact H | ].
  destruct (empty_axis_is_default Studio.Graph Studio.handle "locator1" "nurbsPlane1"
              0%Q 0%Q false false true Studio.plane)
    as (Hnormal & _ & Hn & Ht).
  split; [rewrite <- (Hnormal (Some ""%string)); exact H | ].
  split.
  - exact (proj2 (Hn _ _ _ _ H) _ eq_refl).
  - exact (proj2 (Ht _ _ _ _ H) _ eq_refl).
Defined.

(** ** The further statements on the stand-in host *)

(** X1 on the cube, with [normalize=True]. *)
Lemma normalize_sets_final_value_witness :
  exists s' tr,
    make_uv_pin Studio.handle "locator1" "pCube1" 0%Q 0%Q false true
      None None true Studio.cube = (Returned "locator1_uvPin", s', tr) /\
    exists before after,
      tr = before
           ++ Done (setAttr "locator1_uvPin.normalizedIsoParms" 1) tt :: after /\
      forall node value,
        ~ In (Done (setAttr (node ++ ".normalizedIsoParms") value) tt) after.
Proof.
  pose (r := make_uv_pin Studio.handle "locator1" "pCube1" 0%Q 0%Q false true
               None None true Studio.cube).
  assert (make_uv_pin Studio.handle "locator1" "pCube1" 0%Q 0%Q false true
            None None true Studio.cube
          = (Returned "locator1_uvPin", snd (fst r), snd r)) as H
    by (vm_compute; reflexivity).
  exists (snd (fst r)), (snd r). split; [exact H | ].
  exact (proj1 (normalize_sets_final_value _ Studio.handle _ _ _ _ _ _ _ _ _ _ _ _ _ H)).
Defined.


(** X3 on the cube: the node deleted is the copy of pCube1. *)
Lemma deletes_only_the_copy_witness :
  exists o s' tr,
    make_uv_pin Studio.handle "locator1" "pCube1" 0%Q 0%Q false false
      None None true Studio.cube = (o, s', tr) /\
    In (Done (delete "pCube1_copy") tt) tr /\
    exists (active : string) (copies : list string),
      In (Done (duplicate active) copies) tr /\
      nth_error copies 0 = Some "pCube1_copy"%string.
Proof.
  pose (r := make_uv_pin Studio.handle "locator1" "pCube1" 0%Q 0%Q false false
               None None true Studio.cube).
  assert (make_uv_pin Studio.handle "locator1" "pCube1" 0%Q 0%Q false false
            None None true Studio.cube = (fst (fst r), snd (fst r), snd r)) as H
    by (vm_compute; reflexivity).
  assert (In (Done (delete "pCube1_copy") tt) (snd r)) as Hin by (vm_compute; tauto).
  exists (fst (fst r)), (snd (fst r)), (snd r).
  split; [exact H | ]. split; [exact Hin | ].
  exact (deletes_only_the_copy _ Studio.handle _ _ _ _ _ _ _ _ _ _ _ _ _ _ H Hin).
Defined.

(** X4 on the cube, a mesh. *)
Lemma surface_type_selects_plugs_witness :
  exists s' tr,
    make_uv_pin Studio.handle "locator1" "pCube1" 0%Q 0%Q false false
      None None true Studio.cube = (Returned "locator1_uvPin", s', tr) /\
    In (Done (objectType "pCubeShape1") "mesh") tr /\
    In (Done (connectAttr "pCubeShape1.worldMesh[0]"
                "locator1_uvPin.deformedGeometry" false) tt) tr.
Proof.
  pose (r := make_uv_pin Studio.handle "locator1" "pCube1" 0%Q 0%Q false false
               None None true Studio.cube).
  assert (make_uv_pin Studio.handle "locator1" "pCube1" 0%Q 0%Q false false
            None None true Studio.cube
          = (Returned "locator1_uvPin", snd (fst r), snd r)) as H
    by (vm_compute; reflexivity).
  assert (In (Done (objectType "pCubeShape1") "mesh") (snd r)) as Hin
    by (vm_compute; tauto).
  exists (snd (fst r)), (snd r). split; [exact H | ]. split; [exact Hin | ].
  destruct (surface_type_selects_plugs _ Studio.handle _ _ _ _ _ _ _ _ _ _ _ _ _ _ _
              H Hin) as [(_ & K & _) | (E & _)]; [exact K | discriminate E].
Defined.

(** X5 on the plane: its shape feeds deformedGeometry, its Orig shape
    originalGeometry. *)
Lemma shapes_chosen_in_listing_order_witness :
  read_only_queries Studio.handle /\
  exists s' tr,
    make_uv_pin Studio.handle "locator1" "nurbsPlane1" 0%Q 0%Q false false
      None None true Studio.plane = (Returned "locator1_uvPin", s', tr) /\
    shape_children Studio.handle Studio.plane "nurbsPlane1"
    = ["nurbsPlaneShape1"] ++ "nurbsPlaneShape1Orig"%string :: [] /\
    intermediate_is Studio.handle Studio.plane "nurbsPlaneShape1" false /\
    intermediate_is Studio.handle Studio.plane "nurbsPlaneShape1Orig" true /\
    exists aw ao,
      In (Done (connectAttr ("nurbsPlaneShape1" ++ aw)
                  "locator1_uvPin.deformedGeometry" false) tt) tr /\
      In (Done (connectAttr ("nurbsPlaneShape1Orig" ++ ao)
                  "locator1_uvPin.originalGeometry" false) tt) tr.
Proof.
  split; [exact studio_read_only | ].
  pose (r := make_uv_pin Studio.handle "locator1" "nurbsPlane1" 0%Q 0%Q false false
               None None true Studio.plane).
  assert (make_uv_pin Studio.handle "locator1" "nurbsPlane1" 0%Q 0%Q false false
            None None true Studio.plane
          = (Returned "locator1_uvPin", snd (fst r), snd r)) as H
    by (vm_compute; reflexivity).
  assert (shape_children Studio.handle Studio.plane "nurbsPlane1"
          = ["nurbsPlaneShape1"] ++ "nurbsPlaneShape1Orig"%string :: []) as Hc
    by (vm_compute; reflexivity).
  assert (intermediate_is Studio.handle Studio.plane "nurbsPlaneShape1" false) as Hf
    by (exists Studio.plane; vm_compute; reflexivity).
  assert (intermediate_is Studio.handle Studio.plane "nurbsPlaneShape1Orig" true) as Ht
    by (exists Studio.plane; vm_compute; reflexivity).
  exists (snd (fst r)), (snd r).
  split; [exact H | ]. split; [exact Hc | ]. split; [exact Hf | ]. split; [exact Ht | ].
  destruct (shapes_chosen_in_listing_order _ Studio.handle _ _ _ _ _ _ _ _ _ _ _ _ _
              studio_read_only H) as (ai & aw & ao & _ & Hactive & Hreference).
  exists aw, ao. split.
  - apply (Hactive [] "nurbsPlaneShape1"%string ["nurbsPlaneShape1Orig"%string]).
    + vm_compute. reflexivity.
    + intros y [].
    + exact Hf.
  - apply (Hreference ["nurbsPlaneShape1"%string] "nurbsPlaneShape1Orig"%string []).
    + exact Hc.
    + intros y [<- | []]. exact Hf.
    + exact Ht.
Defined.

(** X6 on the plane, with [normal_axis="x"] and [tangent_axis="q"]. *)
Lemma argument_error_leaves_object_unpinned_witness :
  exists s' tr,
    make_uv_pin Studio.handle "locator1" "nurbsPlane1" 0%Q 0%Q false false
      (Some "x") (Some "q") true Studio.plane
    = (Raised (ArgumentError "q isn't a valid axis, it should be x y z -x -y -z"),
       s', tr) /\
    In (Done (setAttr "locator1_uvPin.normalAxis" 0) tt) tr /\
    In (Done (xform "locator1" [0; 0; 0]%Z [0; 0; 0]%Z) tt) tr /\
    (forall source force,
        ~ In (Done (connectAttr source "locator1.offsetParentMatrix" force) tt) tr) /\
    unknown_axis (Some "q").
Proof.
  pose (r := make_uv_pin Studio.handle "locator1" "nurbsPlane1" 0%Q 0%Q false false
               (Some "x") (Some "q") true Studio.plane).
  assert (make_uv_pin Studio.handle "locator1" "nurbsPlane1" 0%Q 0%Q false false
            (Some "x") (Some "q") true Studio.plane
          = (Raised (ArgumentError "q isn't a valid axis, it should be x y z -x -y -z"),
             snd (fst r), snd r)) as H
    by (vm_compute; reflexivity).
  assert (In (Done (setAttr "locator1_uvPin.normalAxis" 0) tt) (snd r)) as Hin
    by (vm_compute; tauto).
  exists (snd (fst r)), (snd r). split; [exact H | ]. split; [exact Hin | ].
  destruct (argument_error_leaves_object_unpinned _ Studio.handle _ _ _ _ _ _ _ _ _ _ _
              _ _ H) as (Hzero & _ & Hmatrix & _ & Hnormal).
  split; [exact Hzero | ]. split; [exact Hmatrix | ].
  exact (proj2 (Hnormal "locator1_uvPin"%string 0%Z Hin)).
Defined.

(** X7 on the cube, with the host whose duplicate answers an empty list. *)
Lemma index_error_origin_witness :
  exists s' tr,
    make_uv_pin Studio.handle_silent "locator1" "pCube1" 0%Q 0%Q false false
      None None true Studio.cube = (Raised IndexError, s', tr) /\
    exists before,
      (exists active, tr = before ++ [Done (duplicate active) []]) \/
      (exists plug x, tr = before ++ [Done (listConnections plug) (Some [x])]).
Proof.
  pose (r := make_uv_pin Studio.handle_silent "locator1" "pCube1" 0%Q 0%Q false false
               None None true Studio.cube).
  assert (make_uv_pin Studio.handle_silent "locator1" "pCube1" 0%Q 0%Q false false
            None None true Studio.cube = (Raised IndexError, snd (fst r), snd r)) as H
    by (vm_compute; reflexivity).
  exists (snd (fst r)), (snd r). split; [exact H | ].
  exact (index_error_origin _ Studio.handle_silent _ _ _ _ _ _ _ _ _ _ _ _ H).
Defined.

(** X8 on the cube: the creation of the pin node comes after the checks. *)
Lemma changes_only_after_checks_witness :
  exists o s' tr before after,
    make_uv_pin Studio.handle "locator1" "pCube1" 0%Q 0%Q false false
      None None true Studio.cube = (o, s', tr) /\
    tr = before
         ++ Done (createNode "uvPin" "locator1_uvPin") "locator1_uvPin" :: after /\
    exists relatives primary ty,
      or_empty relatives <> [] /\
      In (Done (listRelatives "pCube1") relatives) before /\
      In (Done (objectType primary) ty) before /\
      (ty = "mesh"%string \/ ty = "nurbsSurface"%string).
Proof.
  pose (r := make_uv_pin Studio.handle "locator1" "pCube1" 0%Q 0%Q false false
               None None true Studio.cube).
  assert (make_uv_pin Studio.handle "locator1" "pCube1" 0%Q 0%Q false false
            None None true Studio.cube = (fst (fst r), snd (fst r), snd r)) as H
    by (vm_compute; reflexivity).
  assert (snd r = firstn 13 (snd r)
                  ++ Done (createNode "uvPin" "locator1_uvPin") "locator1_uvPin"
                  :: skipn 14 (snd r)) as Htr
    by (vm_compute; reflexivity).
  exists (fst (fst r)), (snd (fst r)), (snd r), (firstn 13 (snd r)), (skipn 14 (snd r)).
  split; [exact H | ]. split; [exact Htr | ].
  exact (changes_only_after_checks _ Studio.handle _ _ _ _ _ _ _ _ _ _ _ _ _ _ _ _
           H Htr eq_refl).
Defined.

(** X9 on the cube: the one forced connection. *)
Lemma forces_only_the_shape_input_witness :
  exists o s' tr,
    make_uv_pin Studio.handle "locator1" "pCube1" 0%Q 0%Q false false
      None None true Studio.cube = (o, s', tr) /\
    In (Done (connectAttr "pCubeShape1Orig.worldMesh[0]" "pCubeShape1.inMesh" true)
          tt) tr /\
    exists active origin tmp ai aw,
      "pCubeShape1Orig.worldMesh[0]"%string = (origin ++ aw)%string /\
      "pCubeShape1.inMesh"%string = (active ++ ai)%string /\
      In (Done (rename tmp (active ++ "Orig")) origin) tr.
Proof.
  pose (r := make_uv_pin Studio.handle "locator1" "pCube1" 0%Q 0%Q false false
               None None true Studio.cube).
  assert (make_uv_pin Studio.handle "locator1" "pCube1" 0%Q 0%Q false false
            None None true Studio.cube = (fst (fst r), snd (fst r), snd r)) as H
    by (vm_compute; reflexivity).
  assert (In (Done (connectAttr "pCubeShape1Orig.worldMesh[0]" "pCubeShape1.inMesh"
                      true) tt) (snd r)) as Hin by (vm_compute; tauto).
  exists (fst (fst r)), (snd (fst r)), (snd r).
  split; [exact H | ]. split; [exact Hin | ].
  destruct (forces_only_the_shape_input _ Studio.handle _ _ _ _ _ _ _ _ _ _ _ _ _ _ _
              H Hin) as (active & origin & tmp & ai & aw & _ & Hs & Hd & Hr).
  exists active, origin, tmp, ai, aw.
  split; [exact Hs | ]. split; [exact Hd | exact Hr].
Defined.
